(** * Character Creator API: a shallow embedding of [backend/main.py]

    The handlers of the FastAPI application are embedded as computations of a
    small state-and-exception monad over a document store.  Python strings are
    represented by their UTF-8 bytes ([string]), Python dictionaries by finite
    maps ([gmap string _]), and the MongoDB collections by lists of stored
    documents in natural (insertion) order. *)

From Stdlib Require Import ZArith NArith Lia Ascii String.
From stdpp Require Import base option list strings gmap pretty.

Open Scope string_scope.

(** ** Hexadecimal text *)

Module Hex.

Definition digit (n : N) : ascii :=
  ascii_of_N (if (n <? 10)%N then 48 + n else 87 + n)%N.

Definition value (c : ascii) : option N :=
  let n := N_of_ascii c in
  if ((48 <=? n) && (n <=? 57))%N then Some (n - 48)%N
  else if ((97 <=? n) && (n <=? 102))%N then Some (n - 87)%N
  else if ((65 <=? n) && (n <=? 70))%N then Some (n - 55)%N
  else None.

(** The [n] low nibbles of [x], most significant first. *)
Fixpoint render (n : nat) (x : N) : string :=
  match n with
  | O => ""
  | S k => String (digit (N.land (N.shiftr x (4 * N.of_nat k)) 15))
                  (render k x)
  end.

Fixpoint parse_from (acc : N) (s : string) : option N :=
  match s with
  | "" => Some acc
  | String c r =>
      match value c with
      | Some d => parse_from (16 * acc + d)%N r
      | None => None
      end
  end.

Definition parse (s : string) : option N := parse_from 0%N s.

End Hex.

(** ** hashlib.sha256

    FIPS 180-4 over 32-bit words kept in [N], every addition reduced
    modulo 2^32. *)

Module SHA256.
Local Open Scope N_scope.

Definition mask32 : N := 0xFFFFFFFF.
Definition w32 (x : N) : N := N.land x mask32.
Definition add32 (a b : N) : N := w32 (a + b).
Definition not32 (x : N) : N := N.lxor x mask32.
Definition rotr (n x : N) : N :=
  N.lor (N.shiftr x n) (w32 (N.shiftl x (32 - n))).

Definition Ch (x y z : N) := N.lxor (N.land x y) (N.land (not32 x) z).
Definition Maj (x y z : N) :=
  N.lxor (N.lxor (N.land x y) (N.land x z)) (N.land y z).
Definition Sigma0 x := N.lxor (N.lxor (rotr 2 x) (rotr 13 x)) (rotr 22 x).
Definition Sigma1 x := N.lxor (N.lxor (rotr 6 x) (rotr 11 x)) (rotr 25 x).
Definition sigma0 x := N.lxor (N.lxor (rotr 7 x) (rotr 18 x)) (N.shiftr x 3).
Definition sigma1 x := N.lxor (N.lxor (rotr 17 x) (rotr 19 x)) (N.shiftr x 10).

(** The first sixty-four primes. *)
Definition primes : list N :=
  [ 2; 3; 5; 7; 11; 13; 17; 19; 23; 29; 31; 37; 41; 43; 47; 53;
    59; 61; 67; 71; 73; 79; 83; 89; 97; 101; 103; 107; 109; 113; 127; 131;
    137; 139; 149; 151; 157; 163; 167; 173; 179; 181; 191; 193; 197; 199;
    211; 223; 227; 229; 233; 239; 241; 251; 257; 263; 269; 271; 277; 281;
    283; 293; 307; 311 ].

(** The integer cube root, found bit by bit from bit [n - 1] down. *)
Fixpoint cbrt_bits (n : nat) (x r : N) : N :=
  match n with
  | O => r
  | S k =>
      let c := r + N.shiftl 1 (N.of_nat k) in
      cbrt_bits k x (if c * c * c <=? x then c else r)
  end.

(** The first 32 bits of the fractional part of the cube root of [p]. *)
Definition frac_cbrt (p : N) : N := w32 (cbrt_bits 36 (N.shiftl p 96) 0).

(** The first 32 bits of the fractional part of the square root of [p]. *)
Definition frac_sqrt (p : N) : N := w32 (N.sqrt (N.shiftl p 64)).

(** The round constants: one per prime. *)
Definition K : list N := Eval vm_compute in frac_cbrt <$> primes.

(** Big-endian bytes of the low [n] bytes of [x]. *)
Fixpoint be_bytes (n : nat) (x : N) : list N :=
  match n with
  | O => []
  | S k => N.land (N.shiftr x (8 * N.of_nat k)) 255 :: be_bytes k x
  end.

Definition pad (msg : list N) : list N :=
  let len := length msg in
  let zeros := ((119 - len `mod` 64) `mod` 64)%nat in
  msg ++ [128] ++ replicate zeros 0 ++ be_bytes 8 (8 * N.of_nat len).

Fixpoint words (bs : list N) : list N :=
  match bs with
  | a :: b :: c :: d :: r =>
      (N.shiftl a 24 + N.shiftl b 16 + N.shiftl c 8 + d) :: words r
  | _ => []
  end.

Fixpoint blocks (fuel : nat) (ws : list N) : list (list N) :=
  match fuel, ws with
  | S f, _ :: _ => take 16 ws :: blocks f (drop 16 ws)
  | _, _ => []
  end.

(** The message schedule, newest word first while it is being extended. *)
Fixpoint extend (n : nat) (rev_w : list N) : list N :=
  match n with
  | O => rev_w
  | S k =>
      let w := add32 (add32 (sigma1 (nth 1 rev_w 0)) (nth 6 rev_w 0))
                     (add32 (sigma0 (nth 14 rev_w 0)) (nth 15 rev_w 0)) in
      extend k (w :: rev_w)
  end.

Definition schedule (block : list N) : list N :=
  rev (extend 48 (rev block)).

Record regs := Regs { ra : N; rb : N; rc : N; rd : N;
                      re : N; rf : N; rg : N; rh : N }.

Definition round (s : regs) (kw : N * N) : regs :=
  let t1 := add32 (add32 (add32 (rh s) (Sigma1 (re s)))
                         (add32 (Ch (re s) (rf s) (rg s)) (fst kw)))
                  (snd kw) in
  let t2 := add32 (Sigma0 (ra s)) (Maj (ra s) (rb s) (rc s)) in
  Regs (add32 t1 t2) (ra s) (rb s) (rc s) (add32 (rd s) t1) (re s) (rf s) (rg s).

Definition compress (h : regs) (block : list N) : regs :=
  let s := fold_left round (combine K (schedule block)) h in
  Regs (add32 (ra h) (ra s)) (add32 (rb h) (rb s))
       (add32 (rc h) (rc s)) (add32 (rd h) (rd s))
       (add32 (re h) (re s)) (add32 (rf h) (rf s))
       (add32 (rg h) (rg s)) (add32 (rh h) (rh s)).

(** The initial hash value H(0): one word per prime, for the first
    eight primes. *)
Definition init : regs :=
  Eval vm_compute in
    Regs (frac_sqrt 2) (frac_sqrt 3) (frac_sqrt 5) (frac_sqrt 7)
         (frac_sqrt 11) (frac_sqrt 13) (frac_sqrt 17) (frac_sqrt 19).

Definition bytes_of (s : string) : list N :=
  N_of_ascii <$> list_ascii_of_string s.

Definition digest (msg : list N) : regs :=
  let ws := words (pad msg) in
  fold_left compress (blocks (length ws) ws) init.

Definition hexdigest (s : string) : string :=
  let r := digest (bytes_of s) in
  Hex.render 8 (ra r) ++ Hex.render 8 (rb r) ++ Hex.render 8 (rc r)
    ++ Hex.render 8 (rd r) ++ Hex.render 8 (re r) ++ Hex.render 8 (rf r)
    ++ Hex.render 8 (rg r) ++ Hex.render 8 (rh r).

End SHA256.

(** ** Python values *)

(** What a JSON request body parses to: the values of [Dict[str, Any]].
    Numbers are the integers; floating-point numbers are left out. *)
#[warnings="-register-all"]
Inductive Json :=
| JNull
| JBool (b : bool)
| JInt (z : Z)
| JStr (s : string)
| JArr (l : list Json)
| JObj (kv : list (string * Json)).

(** bson.ObjectId: twelve bytes, kept as a number below [2^96]. *)
Module ObjectId.
Definition t := N.
Definition bound : N := (2 ^ 96)%N.

(** [str(oid)]: 24 lower-case hexadecimal digits. *)
Definition str (o : t) : string := Hex.render 24 o.

(** [ObjectId(s)] for a string [s]: accepted when [s] consists of exactly
    24 hexadecimal digits, [None] standing for [InvalidId] being raised.
    bson decodes with [bytes.fromhex], which also skips ASCII white space
    between digit pairs; a 24-character string with such blanks is rejected
    here. *)
Definition of_str (s : string) : option t :=
  if decide (String.length s = 24%nat) then Hex.parse s else None.
End ObjectId.

(** The values a top-level field of a document takes in this program:
    [None], a string, an ObjectId or an embedded dictionary. *)
Inductive Value :=
| VNone
| VStr (s : string)
| VOid (o : ObjectId.t)
| VDict (kv : list (string * Json)).

Abbreviation Doc := (gmap string Value).

Module Py.

Definition squote : ascii := "'"%char.
Definition dquote : ascii := ascii_of_N 34.

Fixpoint contains (c : ascii) (s : string) : bool :=
  match s with
  | "" => false
  | String a r => Ascii.eqb a c || contains c r
  end.

Definition escape (q c : ascii) : string :=
  let n := N_of_ascii c in
  if Ascii.eqb c "\"%char then "\\"
  else if Ascii.eqb c q then String "\" (String q "")
  else if (n =? 9)%N then "\t"
  else if (n =? 10)%N then "\n"
  else if (n =? 13)%N then "\r"
  else if ((n <? 32) || (n =? 127))%N then "\x" ++ Hex.render 2 n
  else String c "".

(** [repr] of a string: single quotes unless the text has a single quote
    and no double quote.  Bytes above 127 are kept as they are. *)
Definition repr_str (s : string) : string :=
  let q := if contains squote s && negb (contains dquote s)
           then dquote else squote in
  String q (String.concat "" (escape q <$> list_ascii_of_string s))
    ++ String q "".

Fixpoint repr (j : Json) : string :=
  match j with
  | JNull => "None"
  | JBool true => "True"
  | JBool false => "False"
  | JInt z => pretty z
  | JStr s => repr_str s
  | JArr l => "[" ++ String.concat ", " (map repr l) ++ "]"
  | JObj kv =>
      "{" ++ String.concat ", "
               (map (fun p => let '(k, v) := p in
                              repr_str k ++ ": " ++ repr v) kv) ++ "}"
  end.

(** [bool(v)] *)
Definition truthy (v : Value) : bool :=
  match v with
  | VNone => false
  | VStr s => negb (String.eqb s "")
  | VOid _ => true
  | VDict kv => match kv with [] => false | _ => true end
  end.

(** [str(v)] *)
Definition str (v : Value) : string :=
  match v with
  | VNone => "None"
  | VStr s => s
  | VOid o => ObjectId.str o
  | VDict kv => repr (JObj kv)
  end.

(** [bool(d)] for an optional dictionary: [None] and the empty
    dictionary are false. *)
Definition truthy_dict (d : option Doc) : bool :=
  match d with
  | None => false
  | Some m => negb (bool_decide (m = ∅))
  end.

(** [a or b] for an optional string [a]. *)
Definition or_str (a : option string) (b : string) : string :=
  match a with
  | Some s => if String.eqb s "" then b else s
  | None => b
  end.

(** [s.split(sep)[0]] for a one-character separator. *)
Fixpoint split_head (sep : ascii) (s : string) : string :=
  match s with
  | "" => ""
  | String c r => if Ascii.eqb c sep then "" else String c (split_head sep r)
  end.

End Py.

(** ** The document store

    A stored document always carries the identifier the store gave it; the
    dictionary a query hands back is the body with ["_id"] set to it. *)

Record Stored := { _id : ObjectId.t; body : Doc }.

Definition document (s : Stored) : Doc := <["_id" := VOid (_id s)]> (body s).

(** Collection name to documents in natural order. *)
Abbreviation Database := (gmap string (list Stored)).

Definition collection (d : Database) (name : string) : list Stored :=
  default [] (d !! name).

(** A query document [{field: value, ...}]. *)
Abbreviation Filter := (list (string * Value)).

(** Equality of a query value with a field value.  The queries of this
    program only carry strings and ObjectIds. *)
Definition eq_match (q v : Value) : bool :=
  match q, v with
  | VStr a, VStr b => String.eqb a b
  | VOid a, VOid b => N.eqb a b
  | _, _ => false
  end.

Definition matches (flt : Filter) (d : Doc) : bool :=
  forallb (fun kv => match d !! kv.1 with
                     | Some v => eq_match kv.2 v
                     | None => false
                     end) flt.

Definition selects (flt : Filter) (s : Stored) : bool :=
  matches flt (document s).

(** The calls made on the store, in order. *)
Inductive StoreOp :=
| OpFindOne (coll : string) (flt : Filter)
| OpFind (coll : string) (flt : Filter)
| OpInsertOne (coll : string) (doc : Doc)
| OpUpdateOne (coll : string) (flt : Filter) (set : Filter).

(** ** Exceptions and the handler monad *)

Inductive Exn :=
| HTTPException (status_code : Z) (detail : string)
| InvalidId            (* bson.errors.InvalidId *)
| TypeError            (* subscripting [db] while it is [None] *)
| DuplicateKeyError.   (* pymongo.errors: no unused identifier is left *)

Inductive Result (A : Type) :=
| Return (a : A)
| Raise (e : Exn).
Arguments Return {A} a.
Arguments Raise {A} e.

(** The module-level [db] is either [None] or a database handle. *)
Definition State := option Database.

Definition M (A : Type) : Type := State -> list StoreOp * State * Result A.

Definition ret {A} (a : A) : M A := fun st => ([], st, Return a).

Definition bind {A B} (m : M A) (f : A -> M B) : M B :=
  fun st =>
    match m st with
    | (t1, st1, Return a) =>
        match f a st1 with
        | (t2, st2, r) => ((t1 ++ t2)%list, st2, r)
        end
    | (t1, st1, Raise e) => (t1, st1, Raise e)
    end.

Definition raise {A} (e : Exn) : M A := fun st => ([], st, Raise e).

(** [try: m  except Exception: h]; every exception of [Exn] derives from
    [Exception], [HTTPException] included. *)
Definition try_except {A} (m : M A) (h : M A) : M A :=
  fun st =>
    match m st with
    | (t1, st1, Return a) => (t1, st1, Return a)
    | (t1, st1, Raise _) =>
        match h st1 with
        | (t2, st2, r) => ((t1 ++ t2)%list, st2, r)
        end
    end.

#[global] Instance M_ret : MRet M := @ret.
#[global] Instance M_bind : MBind M := fun A B f m => bind m f.
#[global] Instance M_fmap : FMap M := fun A B f m => bind m (fun a => ret (f a)).

(** [db is None] *)
Definition db_is_None : M bool :=
  fun st => ([], st, Return (match st with None => true | Some _ => false end)).

(** [ObjectId(s)] *)
Definition ObjectId_ (s : string) : M ObjectId.t :=
  match ObjectId.of_str s with
  | Some o => ret o
  | None => raise InvalidId
  end.

(** ** pymongo *)

Module Mongo.

(** [db[coll].find_one(flt)]: the first matching document, or [None]. *)
Definition find_one (coll : string) (flt : Filter) : M (option Doc) :=
  fun st =>
    match st with
    | None => ([], st, Raise TypeError)
    | Some d =>
        ([OpFindOne coll flt], st,
         Return (document <$> List.find (selects flt) (collection d coll)))
    end.

(** [list(db[coll].find(flt))]: every matching document, in natural
    order. *)
Definition find (coll : string) (flt : Filter) : M (list Doc) :=
  fun st =>
    match st with
    | None => ([], st, Raise TypeError)
    | Some d =>
        ([OpFind coll flt], st,
         Return (document <$> List.filter (selects flt) (collection d coll)))
    end.

(** The identifier given to the next document of a collection: the
    successor of the largest one in use, if it still fits twelve bytes. *)
Definition id_ceiling (docs : list Stored) : N :=
  foldr (fun s acc => N.max (N.succ (_id s)) acc) 0%N docs.

Definition next_id (docs : list Stored) : option ObjectId.t :=
  let o := id_ceiling docs in
  if (o <? ObjectId.bound)%N then Some o else None.

(** [db[coll].insert_one(doc).inserted_id].  The driver's refusal of a
    document it cannot encode (an integer beyond 64 bits among the settings)
    is not modelled. *)
Definition insert_one (coll : string) (doc : Doc) : M ObjectId.t :=
  fun st =>
    match st with
    | None => ([], st, Raise TypeError)
    | Some d =>
        match next_id (collection d coll) with
        | Some o =>
            ([OpInsertOne coll doc],
             Some (<[coll := (collection d coll ++ [{| _id := o; body := doc |}])%list]> d),
             Return o)
        | None => ([OpInsertOne coll doc], st, Raise DuplicateKeyError)
        end
    end.

(** [{"$set": set}] applied to a stored document. *)
Definition apply_set (set : Filter) (s : Stored) : Stored :=
  {| _id := _id s;
     body := foldr (fun kv b => <[kv.1 := kv.2]> b) (body s) set |}.

Fixpoint update_first (p : Stored -> bool) (f : Stored -> Stored)
    (docs : list Stored) : option (list Stored) :=
  match docs with
  | [] => None
  | s :: r => if p s then Some (f s :: r)
              else cons s <$> update_first p f r
  end.

(** [db[coll].update_one(flt, {"$set": set}).matched_count] *)
Definition update_one (coll : string) (flt set : Filter) : M Z :=
  fun st =>
    match st with
    | None => ([], st, Raise TypeError)
    | Some d =>
        match update_first (selects flt) (apply_set set) (collection d coll) with
        | Some docs' =>
            ([OpUpdateOne coll flt set], Some (<[coll := docs']> d), Return 1%Z)
        | None => ([OpUpdateOne coll flt set], st, Return 0%Z)
        end
    end.

End Mongo.

(** ** schemas.py *)

Module User.
Record t := { email : string; username : string;
              password_hash : string; plan : string }.
End User.

Module Character.
Record t := { user_id : string; prompt : string;
              settings : list (string * Json);
              preview_url : option string }.
End Character.

(** pydantic's [BaseModel]: what [model_dump] serialises a record to. *)
Class BaseModel (A : Type) := model_dump : A -> Doc.

#[global] Instance User_model : BaseModel User.t := fun u =>
  <["email" := VStr (User.email u)]>
    (<["username" := VStr (User.username u)]>
       (<["password_hash" := VStr (User.password_hash u)]>
          (<["plan" := VStr (User.plan u)]> ∅))).

#[global] Instance Character_model : BaseModel Character.t := fun c =>
  <["user_id" := VStr (Character.user_id c)]>
    (<["prompt" := VStr (Character.prompt c)]>
       (<["settings" := VDict (Character.settings c)]>
          (<["preview_url" := match Character.preview_url c with
                              | Some u => VStr u
                              | None => VNone
                              end]> ∅))).

(** ** database.py *)

(** Modelled from the spec: [database.create_document] is imported by
    [main.py] but is not among the sources.  Section 4.1: it serialises the
    record to a document, inserts it into the named collection and returns
    the newly assigned identifier as a string; store failures propagate. *)
Definition create_document {A} `{BaseModel A}
    (collection_name : string) (data : A) : M string :=
  o ← Mongo.insert_one collection_name (model_dump data);
  mret (ObjectId.str o).

(** Modelled from the spec: [database.get_documents] is imported by
    [main.py] but is not among the sources.  Section 4.1: given a
    collection name, an equality filter and a maximum result count, it
    returns the matching documents in the order of the store, at most that
    many, and the empty sequence when nothing matches. *)
Definition get_documents (collection_name : string) (filter_dict : Filter)
    (limit : Z) : M (list Doc) :=
  docs ← Mongo.find collection_name filter_dict;
  mret (take (Z.to_nat limit) docs).

(** ** main.py *)

(** Strings being byte strings here, [pw.encode("utf-8")] is the identity;
    a Python [str] that UTF-8 cannot encode (a lone surrogate) has no
    counterpart. *)
Definition hash_password (pw : string) : string := SHA256.hexdigest pw.

Definition to_str_id (doc : option Doc) : option Doc :=
  if negb (Py.truthy_dict doc) then doc
  else
    match doc with
    | None => None
    | Some d =>
        match d !! "_id" with
        | Some v =>
            if Py.truthy v
            then Some (<["id" := VStr (Py.str v)]> (delete "_id" d))
            else Some d
        | None => Some d
        end
    end.

Module AuthPayload.
Record t := { email : string; password : string; username : option string }.
End AuthPayload.

Module CharacterPayload.
Record t := { prompt : string; settings : list (string * Json) }.
End CharacterPayload.

Module PlanPayload.
Record t := { user_id : string; plan : string }.
End PlanPayload.

Definition unavailable : Exn := HTTPException 500 "Database not available".

Definition root : Doc := {[ "message" := VStr "Character Creator API" ]}.

Definition signup (payload : AuthPayload.t) : M (option Doc) :=
  none ← db_is_None;
  if (none : bool) then raise unavailable
  else
    existing ← Mongo.find_one "user" [("email", VStr (AuthPayload.email payload))];
    if Py.truthy_dict existing
    then raise (HTTPException 400 "Email already registered")
    else
      let username :=
        Py.or_str (AuthPayload.username payload)
                  (Py.split_head "@" (AuthPayload.email payload)) in
      let user :=
        {| User.email := AuthPayload.email payload;
           User.username := username;
           User.password_hash := hash_password (AuthPayload.password payload);
           User.plan := "free" |} in
      user_id ← create_document "user" user;
      oid ← ObjectId_ user_id;
      doc ← Mongo.find_one "user" [("_id", VOid oid)];
      mret (to_str_id doc).

Definition login (payload : AuthPayload.t) : M (option Doc) :=
  none ← db_is_None;
  if (none : bool) then raise unavailable
  else
    user ← Mongo.find_one "user"
             [("email", VStr (AuthPayload.email payload));
              ("password_hash", VStr (hash_password (AuthPayload.password payload)))];
    if negb (Py.truthy_dict user)
    then raise (HTTPException 401 "Invalid credentials")
    else mret (to_str_id user).

Definition me (user_id : string) : M (option Doc) :=
  none ← db_is_None;
  if (none : bool) then raise unavailable
  else
    try_except
      (oid ← ObjectId_ user_id;
       user ← Mongo.find_one "user" [("_id", VOid oid)];
       if negb (Py.truthy_dict user)
       then raise (HTTPException 404 "User not found")
       else mret (to_str_id user))
      (raise (HTTPException 400 "Invalid user id")).

Definition preview : string :=
  "https://images.unsplash.com/photo-1542272604-787c3835535d?q=80&w=1200&auto=format&fit=crop".

Definition generate_character (payload : CharacterPayload.t)
    (user_id : option string) : M (option Doc) :=
  none ← db_is_None;
  if (none : bool) then raise unavailable
  else
    let char :=
      {| Character.user_id := Py.or_str user_id "guest";
         Character.prompt := CharacterPayload.prompt payload;
         Character.settings := CharacterPayload.settings payload;
         Character.preview_url := Some preview |} in
    char_id ← create_document "character" char;
    oid ← ObjectId_ char_id;
    doc ← Mongo.find_one "character" [("_id", VOid oid)];
    mret (to_str_id doc).

Definition list_characters (user_id : string) (limit : Z) : M (list (option Doc)) :=
  none ← db_is_None;
  if (none : bool) then raise unavailable
  else
    docs ← get_documents "character" [("user_id", VStr user_id)] limit;
    mret ((fun d => to_str_id (Some d)) <$> docs).

Definition plans : gset string := {[ "free"; "plus"; "pro" ]}.

Definition update_plan (payload : PlanPayload.t) : M (option Doc) :=
  none ← db_is_None;
  if (none : bool) then raise unavailable
  else if negb (bool_decide (PlanPayload.plan payload ∈ plans))
  then raise (HTTPException 400 "Invalid plan")
  else
    try_except
      (oid ← ObjectId_ (PlanPayload.user_id payload);
       matched_count ← Mongo.update_one "user" [("_id", VOid oid)]
                          [("plan", VStr (PlanPayload.plan payload))];
       if (matched_count =? 0)%Z
       then raise (HTTPException 404 "User not found")
       else
         oid' ← ObjectId_ (PlanPayload.user_id payload);
         doc ← Mongo.find_one "user" [("_id", VOid oid')];
         mret (to_str_id doc))
      (raise (HTTPException 400 "Invalid user id")).

Definition test_database : M Doc :=
  none ← db_is_None;
  mret (<["backend" := VStr "✅ Running"]>
          {[ "database" := VStr (if (none : bool) then "❌ Not Available"
                                 else "✅ Connected") ]}).

(** The six data endpoints as FastAPI routes them; [limit] falls back to
    20 when the query string has none. *)
Inductive Request :=
| PostSignup (payload : AuthPayload.t)
| PostLogin (payload : AuthPayload.t)
| GetMe (user_id : string)
| PostGenerate (payload : CharacterPayload.t) (user_id : option string)
| GetCharacters (user_id : string) (limit : option Z)
| PostPlan (payload : PlanPayload.t).

Inductive Response :=
| One (doc : option Doc)
| Many (docs : list (option Doc)).

Definition dispatch (r : Request) : M Response :=
  match r with
  | PostSignup p => One <$> signup p
  | PostLogin p => One <$> login p
  | GetMe u => One <$> me u
  | PostGenerate p u => One <$> generate_character p u
  | GetCharacters u l => Many <$> list_characters u (default 20%Z l)
  | PostPlan p => One <$> update_plan p
  end.


(** ** The records the handlers build, and their responses *)

Definition signup_user (payload : AuthPayload.t) : User.t :=
  {| User.email := AuthPayload.email payload;
     User.username :=
       Py.or_str (AuthPayload.username payload)
                 (Py.split_head "@" (AuthPayload.email payload));
     User.password_hash := hash_password (AuthPayload.password payload);
     User.plan := "free" |}.

Definition generated_character (payload : CharacterPayload.t)
    (user_id : option string) : Character.t :=
  {| Character.user_id := Py.or_str user_id "guest";
     Character.prompt := CharacterPayload.prompt payload;
     Character.settings := CharacterPayload.settings payload;
     Character.preview_url := Some preview |}.

Definition by_id (o : ObjectId.t) : Filter := [("_id", VOid o)].
Definition by_email (e : string) : Filter := [("email", VStr e)].
Definition by_credentials (payload : AuthPayload.t) : Filter :=
  [("email", VStr (AuthPayload.email payload));
   ("password_hash", VStr (hash_password (AuthPayload.password payload)))].
Definition by_owner (user_id : string) : Filter := [("user_id", VStr user_id)].
Definition set_plan (plan : string) : Filter := [("plan", VStr plan)].

(** The three components of a run. *)
Definition trace_of {A} (x : list StoreOp * State * Result A) : list StoreOp := x.1.1.
Definition state_after {A} (x : list StoreOp * State * Result A) : State := x.1.2.
Definition returned {A} (x : list StoreOp * State * Result A) : option A :=
  match x.2 with
  | Return a => Some a
  | Raise _ => None
  end.

(** The documents of a response body. *)
Definition documents_of (r : Response) : list (option Doc) :=
  match r with
  | One d => [d]
  | Many l => l
  end.

(** The collection an endpoint serves its documents from. *)
Definition collection_of (r : Request) : string :=
  match r with
  | PostSignup _ | PostLogin _ | GetMe _ | PostPlan _ => "user"
  | PostGenerate _ _ | GetCharacters _ _ => "character"
  end.

(** The response document [d] is the stored document [s] with its
    identifier moved from ["_id"] to ["id"] in string form: ["id"] holds
    [str] of the ObjectId of [s], there is no ["_id"], and every other field
    is the one the store holds. *)
Definition translation_of (s : Stored) (d : option Doc) : Prop :=
  exists m : Doc,
    d = Some m /\
    m !! "id" = Some (VStr (ObjectId.str (_id s))) /\
    m !! "_id" = None /\
    forall k, k <> "id" -> k <> "_id" -> m !! k = document s !! k.

(** A stored user whose email and password digest are those of the request. *)
Definition credentials_match (p : AuthPayload.t) (s : Stored) : Prop :=
  document s !! "email" = Some (VStr (AuthPayload.email p)) /\
  document s !! "password_hash"
  = Some (VStr (hash_password (AuthPayload.password p))).

(** Does a response document carry this ["id"]? *)
Definition has_id (s : string) (d : option Doc) : bool :=
  match d with
  | Some m => match m !! "id" with
              | Some (VStr t) => String.eqb s t
              | _ => false
              end
  | None => false
  end.

(** ** Vocabulary for the properties of the handlers *)

(** What one request can do to an available store: nothing, append the
    user a signup built, append the character a generation built, or set a
    valid plan on one user document. *)
Inductive step (db : Database) : Database -> Prop :=
| step_same : step db db
| step_signup (p : AuthPayload.t) (o : ObjectId.t) :
    List.find (selects (by_email (AuthPayload.email p))) (collection db "user") = None ->
    Mongo.next_id (collection db "user") = Some o ->
    step db (<["user" := (collection db "user"
                          ++ [{| _id := o; body := model_dump (signup_user p) |}])%list]> db)
| step_generate (p : CharacterPayload.t) (user_id : option string) (o : ObjectId.t) :
    Mongo.next_id (collection db "character") = Some o ->
    step db (<["character" := (collection db "character"
                               ++ [{| _id := o;
                                      body := model_dump (generated_character p user_id) |}])%list]> db)
| step_plan (i : nat) (u : Stored) (plan : string) :
    collection db "user" !! i = Some u ->
    plan ∈ plans ->
    step db (<["user" := <[i := Mongo.apply_set (set_plan plan) u]>
                           (collection db "user")]> db).

(** Every stored user has one of the three plans. *)
Definition plans_valid (db : Database) : Prop :=
  forall s, In s (collection db "user") ->
    exists plan, body s !! "plan" = Some (VStr plan) /\ plan ∈ plans.

(** No two stored users share an email. *)
Definition emails_unique (db : Database) : Prop :=
  forall (i j : nat) (a b : Stored) (e : string),
    collection db "user" !! i = Some a ->
    collection db "user" !! j = Some b ->
    body a !! "email" = Some (VStr e) ->
    body b !! "email" = Some (VStr e) ->
    i = j.

(** ** Sample requests and stores *)

Module Sample.

Definition alice : AuthPayload.t :=
  {| AuthPayload.email := "a@x.com"; AuthPayload.password := "pw1";
     AuthPayload.username := None |}.

Definition alice_typo : AuthPayload.t :=
  {| AuthPayload.email := "a@x.com"; AuthPayload.password := "pw2";
     AuthPayload.username := None |}.

Definition empty : State := Some ∅.

(** The store after Alice has signed up. *)
Definition one_user : Database :=
  {[ "user" := [ {| _id := 0%N; body := model_dump (signup_user alice) |} ] ]}.

(** A well-formed identifier that no stored user has. *)
Definition unissued : string := "507f1f77bcf86cd799439011".

Definition gold : PlanPayload.t :=
  {| PlanPayload.user_id := "000000000000000000000000";
     PlanPayload.plan := "gold" |}.

Definition upgrade : PlanPayload.t :=
  {| PlanPayload.user_id := "000000000000000000000000";
     PlanPayload.plan := "pro" |}.

Definition elf : CharacterPayload.t :=
  {| CharacterPayload.prompt := "an elf ranger";
     CharacterPayload.settings := [("style", JStr "ink")] |}.

(** Twenty guest characters, identifiers 0 to 19. *)
Definition crowded : Database :=
  {[ "character" :=
       (fun i => {| _id := N.of_nat i;
                    body := model_dump (generated_character elf None) |})
         <$> seq 0 20 ]}.

Definition bob : AuthPayload.t :=
  {| AuthPayload.email := "bob@y.org"; AuthPayload.password := "hunter2";
     AuthPayload.username := Some "bobby" |}.

(** Generating one more guest character in the crowded store, then
    listing the guest characters with the default limit. *)
Definition generated := generate_character elf None (Some crowded).
Definition listing :=
  dispatch (GetCharacters "guest" None) (state_after generated).

End Sample.

(** * Properties *)

(** ** Test vectors *)

Example sha256_empty :
  hash_password "" =
  "e3b0c44298fc1c149afbf4c8996fb92427ae41e4649b934ca495991b7852b855".
Proof. vm_compute. reflexivity. Qed.

Example sha256_abc :
  hash_password "abc" =
  "ba7816bf8f01cfea414140de5dae2223b00361a396177a9cb410ff61f20015ad".
Proof. vm_compute. reflexivity. Qed.

Example sha256_two_blocks :
  hash_password "aaaaaaaaaaaaaaaaaaaaaaaaaaaaaaaaaaaaaaaaaaaaaaaaaaaaaaaa" =
  "b35439a4ac6f0948b6d6f9e3c6af0f5f590ce20f1bde7090ef7970686ec6738a".
Proof. vm_compute. reflexivity. Qed.



(** ** Hexadecimal round trip *)

Section HexFacts.
Local Open Scope N_scope.

Lemma hex_value_digit (d : N) : d < 16 -> Hex.value (Hex.digit d) = Some d.
Proof.
  intros Hd.
  assert (Hcases : Forall (fun k => Hex.value (Hex.digit k) = Some k)
                     (N.of_nat <$> seq 0 16)).
  { repeat constructor. }
  rewrite Forall_forall in Hcases. apply Hcases.
  apply list_elem_of_fmap. exists (N.to_nat d). split; [lia|].
  apply elem_of_seq. lia.
Qed.

Lemma hex_render_length (n : nat) (x : N) :
  String.length (Hex.render n x) = n.
Proof. induction n as [|n IH]; simpl; [reflexivity | now rewrite IH]. Qed.

Lemma hex_nibble (x : N) (k : nat) :
  N.land (N.shiftr x (4 * N.of_nat k)) 15 = (x / 16 ^ N.of_nat k) mod 16.
Proof.
  change 15 with (N.ones 4). rewrite N.land_ones, N.shiftr_div_pow2.
  rewrite N.pow_mul_r. reflexivity.
Qed.

Lemma hex_parse_from_render (n : nat) (x acc : N) :
  Hex.parse_from acc (Hex.render n x)
  = Some (acc * 16 ^ N.of_nat n + x mod 16 ^ N.of_nat n).
Proof.
  revert acc. induction n as [|n IH]; intros acc.
  - simpl. rewrite N.mod_1_r. f_equal. lia.
  - cbn [Hex.render Hex.parse_from].
    rewrite hex_nibble, hex_value_digit by (apply N.mod_lt; lia).
    rewrite IH. f_equal.
    rewrite Nat2N.inj_succ, N.pow_succ_r'.
    rewrite (N.mul_comm 16 (16 ^ N.of_nat n)), N.Div0.mod_mul_r. lia.
Qed.

Lemma ObjectId_str_length (o : ObjectId.t) :
  String.length (ObjectId.str o) = 24%nat.
Proof. apply hex_render_length. Qed.

Lemma ObjectId_of_str_str (o : ObjectId.t) :
  o < ObjectId.bound -> ObjectId.of_str (ObjectId.str o) = Some o.
Proof.
  intros Ho. unfold ObjectId.of_str.
  rewrite decide_True by apply ObjectId_str_length.
  unfold Hex.parse, ObjectId.str. rewrite hex_parse_from_render.
  f_equal. rewrite N.mul_0_l, N.add_0_l. apply N.mod_small. exact Ho.
Qed.

End HexFacts.

#[global] Opaque SHA256.hexdigest.

(** ** Documents and queries *)

Lemma document_id (s : Stored) : document s !! "_id" = Some (VOid (_id s)).
Proof. apply lookup_insert_eq. Qed.

Lemma document_field (s : Stored) (k : string) :
  k ≠ "_id" -> document s !! k = body s !! k.
Proof. intros Hk. unfold document. now rewrite lookup_insert_ne. Qed.

Lemma document_nonempty (s : Stored) : document s ≠ ∅.
Proof. apply insert_non_empty. Qed.

Lemma truthy_dict_document (o : option Stored) :
  Py.truthy_dict (document <$> o) = bool_decide (is_Some o).
Proof.
  destruct o as [s|]; simpl.
  - rewrite bool_decide_false by apply document_nonempty. reflexivity.
  - reflexivity.
Qed.

Lemma to_str_id_document (s : Stored) :
  to_str_id (Some (document s))
  = Some (<["id" := VStr (ObjectId.str (_id s))]> (delete "_id" (body s))).
Proof.
  unfold to_str_id. simpl.
  rewrite bool_decide_false by apply document_nonempty. simpl.
  rewrite document_id. simpl. unfold document.
  now rewrite delete_insert_eq.
Qed.

Lemma selects_id (o : ObjectId.t) (s : Stored) :
  selects [("_id", VOid o)] s = (o =? _id s)%N.
Proof.
  unfold selects, matches. simpl. rewrite document_id. simpl.
  apply andb_true_r.
Qed.

Lemma selects_str (k v : string) (s : Stored) :
  k ≠ "_id" ->
  selects [(k, VStr v)] s = true <-> body s !! k = Some (VStr v).
Proof.
  intros Hk. unfold selects, matches. simpl. rewrite document_field by exact Hk.
  rewrite andb_true_r.
  destruct (body s !! k) as [[| w | |]|]; simpl; try (split; congruence).
  rewrite String.eqb_eq. split; [intros ->; reflexivity | congruence].
Qed.

Lemma selects_cons (kv : string * Value) (flt : Filter) (s : Stored) :
  selects (kv :: flt) s = selects [kv] s && selects flt s.
Proof. unfold selects, matches. simpl. now rewrite andb_true_r. Qed.

(** ** Identifier allocation *)

Lemma next_id_bound (docs : list Stored) (o : ObjectId.t) :
  Mongo.next_id docs = Some o -> (o < ObjectId.bound)%N.
Proof.
  unfold Mongo.next_id. case_match eqn:Hlt; [|discriminate].
  intros [= <-]. now apply N.ltb_lt.
Qed.

Lemma id_ceiling_above (docs : list Stored) (s : Stored) :
  In s docs -> (_id s < Mongo.id_ceiling docs)%N.
Proof.
  induction docs as [|d docs IH]; simpl; [tauto|].
  intros [->|Hin]; [lia|]. specialize (IH Hin). lia.
Qed.

Lemma next_id_above (docs : list Stored) (o : ObjectId.t) (s : Stored) :
  Mongo.next_id docs = Some o -> In s docs -> (_id s < o)%N.
Proof.
  unfold Mongo.next_id. case_match; [|discriminate]. intros [= <-].
  apply id_ceiling_above.
Qed.

Lemma next_id_room (docs : list Stored) :
  (Mongo.id_ceiling docs < ObjectId.bound)%N ->
  Mongo.next_id docs = Some (Mongo.id_ceiling docs).
Proof.
  intros H. unfold Mongo.next_id.
  now apply N.ltb_lt in H as ->.
Qed.

Lemma find_appended {A} (p : A -> bool) (l : list A) (x : A) :
  (forall y, In y l -> p y = false) -> p x = true ->
  List.find p (l ++ [x]) = Some x.
Proof.
  intros Hl Hx. induction l as [|y l IH]; simpl.
  - now rewrite Hx.
  - rewrite (Hl y) by now left. apply IH. intros z Hz. apply Hl. now right.
Qed.

Lemma collection_insert (d : Database) (name : string) (docs : list Stored) :
  collection (<[name := docs]> d) name = docs.
Proof. unfold collection. now rewrite lookup_insert_eq. Qed.

Lemma collection_insert_ne (d : Database) (name other : string)
    (docs : list Stored) :
  name ≠ other -> collection (<[name := docs]> d) other = collection d other.
Proof. intros H. unfold collection. now rewrite lookup_insert_ne. Qed.

(** ** Running a handler

    The pure parts stay folded while the monad is unfolded. *)

#[global] Arguments ObjectId.str : simpl never.
#[global] Arguments ObjectId.of_str : simpl never.
#[global] Arguments to_str_id : simpl never.
#[global] Arguments model_dump : simpl never.
#[global] Arguments collection : simpl never.
#[global] Arguments selects : simpl never.
#[global] Arguments document : simpl never.
#[global] Arguments hash_password : simpl never.
#[global] Arguments Py.truthy_dict : simpl never.
#[global] Arguments Mongo.next_id : simpl never.

(** Closed equations between concrete terms are settled by evaluation. *)
Ltac by_vm :=
  match goal with
  | |- ?a = ?b => vm_cast_no_check (@eq_refl _ b)
  end.

Ltac run_monad :=
  unfold create_document, get_documents, ObjectId_, try_except,
    fmap, M_fmap, mbind, M_bind, bind, mret, M_ret, ret, raise, db_is_None,
    Mongo.find_one, Mongo.find, Mongo.insert_one, Mongo.update_one;
  cbn.

Lemma signup_run (db : Database) (p : AuthPayload.t) :
  signup p (Some db) =
  let users := collection db "user" in
  let doc := model_dump (signup_user p) in
  match List.find (selects (by_email (AuthPayload.email p))) users with
  | Some _ =>
      ([OpFindOne "user" (by_email (AuthPayload.email p))], Some db,
       Raise (HTTPException 400 "Email already registered"))
  | None =>
      match Mongo.next_id users with
      | None =>
          ([OpFindOne "user" (by_email (AuthPayload.email p));
            OpInsertOne "user" doc], Some db, Raise DuplicateKeyError)
      | Some o =>
          let s := {| _id := o; body := doc |} in
          ([OpFindOne "user" (by_email (AuthPayload.email p));
            OpInsertOne "user" doc; OpFindOne "user" (by_id o)],
           Some (<["user" := (users ++ [s])%list]> db),
           Return (to_str_id (Some (document s))))
      end
  end.
Proof.
  unfold signup, by_email, by_id. run_monad.
  rewrite truthy_dict_document.
  destruct (List.find _ _) as [s|] eqn:Hfind; [reflexivity|]. cbn.
  fold (signup_user p).
  destruct (Mongo.next_id _) as [o|] eqn:Hnext; [|reflexivity]. cbn.
  rewrite ObjectId_of_str_str by (eapply next_id_bound; eauto). cbn.
  rewrite collection_insert.
  rewrite find_appended with (x := {| _id := o; body := model_dump (signup_user p) |}).
  - reflexivity.
  - intros y Hy. rewrite selects_id. apply N.eqb_neq.
    pose proof (next_id_above _ _ _ Hnext Hy). lia.
  - rewrite selects_id. apply N.eqb_refl.
Qed.

Lemma login_run (db : Database) (p : AuthPayload.t) :
  login p (Some db) =
  match List.find (selects (by_credentials p)) (collection db "user") with
  | Some s =>
      ([OpFindOne "user" (by_credentials p)], Some db,
       Return (to_str_id (Some (document s))))
  | None =>
      ([OpFindOne "user" (by_credentials p)], Some db,
       Raise (HTTPException 401 "Invalid credentials"))
  end.
Proof.
  unfold login, by_credentials. run_monad. rewrite truthy_dict_document.
  destruct (List.find _ _); reflexivity.
Qed.

Lemma me_run (db : Database) (user_id : string) :
  me user_id (Some db) =
  match ObjectId.of_str user_id with
  | None => ([], Some db, Raise (HTTPException 400 "Invalid user id"))
  | Some o =>
      match List.find (selects (by_id o)) (collection db "user") with
      | Some s =>
          ([OpFindOne "user" (by_id o)], Some db,
           Return (to_str_id (Some (document s))))
      | None =>
          ([OpFindOne "user" (by_id o)], Some db,
           Raise (HTTPException 400 "Invalid user id"))
      end
  end.
Proof.
  unfold me, by_id. run_monad.
  destruct (ObjectId.of_str user_id) as [o|]; [|reflexivity]. cbn.
  rewrite truthy_dict_document.
  destruct (List.find _ _); reflexivity.
Qed.

Lemma generate_character_run (db : Database) (p : CharacterPayload.t)
    (user_id : option string) :
  generate_character p user_id (Some db) =
  let chars := collection db "character" in
  let doc := model_dump (generated_character p user_id) in
  match Mongo.next_id chars with
  | None => ([OpInsertOne "character" doc], Some db, Raise DuplicateKeyError)
  | Some o =>
      let s := {| _id := o; body := doc |} in
      ([OpInsertOne "character" doc; OpFindOne "character" (by_id o)],
       Some (<["character" := (chars ++ [s])%list]> db),
       Return (to_str_id (Some (document s))))
  end.
Proof.
  unfold generate_character, by_id. run_monad.
  fold (generated_character p user_id).
  destruct (Mongo.next_id _) as [o|] eqn:Hnext; [|reflexivity]. cbn.
  rewrite ObjectId_of_str_str by (eapply next_id_bound; eauto). cbn.
  rewrite collection_insert.
  rewrite find_appended
    with (x := {| _id := o; body := model_dump (generated_character p user_id) |}).
  - reflexivity.
  - intros y Hy. rewrite selects_id. apply N.eqb_neq.
    pose proof (next_id_above _ _ _ Hnext Hy). lia.
  - rewrite selects_id. apply N.eqb_refl.
Qed.

Lemma list_characters_run (db : Database) (user_id : string) (limit : Z) :
  list_characters user_id limit (Some db) =
  ([OpFind "character" (by_owner user_id)], Some db,
   Return ((fun s => to_str_id (Some (document s))) <$>
             take (Z.to_nat limit)
               (List.filter (selects (by_owner user_id))
                  (collection db "character")))).
Proof.
  unfold list_characters, by_owner. run_monad.
  rewrite <- fmap_take, <- list_fmap_compose. reflexivity.
Qed.

(** ** update_one *)

Lemma update_first_spec (p : Stored -> bool) (f : Stored -> Stored)
    (l l' : list Stored) :
  Mongo.update_first p f l = Some l' ->
  exists (i : nat) (s : Stored),
    l !! i = Some s /\ p s = true /\ l' = <[i := f s]> l.
Proof.
  revert l'. induction l as [|x l IH]; intros l'; simpl; [discriminate|].
  destruct (p x) eqn:Hp.
  - intros [= <-]. exists 0%nat, x. auto.
  - destruct (Mongo.update_first p f l) as [r|]; [|discriminate].
    intros [= <-]. destruct (IH r eq_refl) as (i & s & Hi & Hs & ->).
    exists (S i), s. auto.
Qed.

Lemma update_first_find (p : Stored -> bool) (f : Stored -> Stored)
    (l l' : list Stored) :
  (forall s, p s = true -> p (f s) = true) ->
  Mongo.update_first p f l = Some l' ->
  exists s, List.find p l = Some s /\ List.find p l' = Some (f s).
Proof.
  intros Hf. revert l'. induction l as [|x l IH]; intros l'; simpl; [discriminate|].
  destruct (p x) eqn:Hp.
  - intros [= <-]. exists x. simpl. now rewrite (Hf x Hp).
  - destruct (Mongo.update_first p f l) as [r|]; [|discriminate].
    intros [= <-]. destruct (IH r eq_refl) as (s & Hs & Hs').
    exists s. simpl. now rewrite Hp.
Qed.

Lemma update_first_none (p : Stored -> bool) (f : Stored -> Stored)
    (l : list Stored) :
  Mongo.update_first p f l = None <-> List.find p l = None.
Proof.
  induction l as [|x l IH]; simpl; [tauto|].
  destruct (p x); [split; discriminate|].
  destruct (Mongo.update_first p f l); simpl.
  - split; [discriminate|]. intros H. apply IH in H. discriminate.
  - split; [|reflexivity]. intros _. now apply IH.
Qed.

Lemma selects_id_apply_set (o : ObjectId.t) (set : Filter) (s : Stored) :
  selects (by_id o) s = true -> selects (by_id o) (Mongo.apply_set set s) = true.
Proof. unfold by_id. now rewrite !selects_id. Qed.

Lemma apply_set_plan (plan : string) (s : Stored) :
  Mongo.apply_set (set_plan plan) s
  = {| _id := _id s; body := <["plan" := VStr plan]> (body s) |}.
Proof. reflexivity. Qed.

Lemma update_plan_run (db : Database) (p : PlanPayload.t) :
  update_plan p (Some db) =
  if bool_decide (PlanPayload.plan p ∈ plans) then
    match ObjectId.of_str (PlanPayload.user_id p) with
    | None => ([], Some db, Raise (HTTPException 400 "Invalid user id"))
    | Some o =>
        let upd := OpUpdateOne "user" (by_id o) (set_plan (PlanPayload.plan p)) in
        match Mongo.update_first (selects (by_id o))
                (Mongo.apply_set (set_plan (PlanPayload.plan p)))
                (collection db "user") with
        | None => ([upd], Some db, Raise (HTTPException 400 "Invalid user id"))
        | Some users' =>
            ([upd; OpFindOne "user" (by_id o)],
             Some (<["user" := users']> db),
             Return (to_str_id (document <$> List.find (selects (by_id o)) users')))
        end
    end
  else ([], Some db, Raise (HTTPException 400 "Invalid plan")).
Proof.
  unfold update_plan, by_id, set_plan. run_monad.
  destruct (bool_decide _); [|reflexivity]. cbn.
  destruct (ObjectId.of_str _) as [o|]; [|reflexivity]. cbn.
  destruct (Mongo.update_first _ _ _) as [users'|]; [|reflexivity]. cbn.
  now rewrite collection_insert.
Qed.

(** ** Store unavailable *)

(** C8: with the store unavailable ([db] is [None]) each of the six data
    endpoints raises the 500 "Database not available" error, makes no call
    on the store and leaves the state as it was. *)
Theorem dispatch_unavailable (r : Request) :
  dispatch r None = ([], None, Raise (HTTPException 500 "Database not available")).
Proof. destruct r; reflexivity. Qed.

(** ** GET /me *)

Lemma me_never_not_found (st : State) (user_id : string)
    (tr : list StoreOp) (st' : State) (detail : string) :
  me user_id st <> (tr, st', Raise (HTTPException 404 detail)).
Proof.
  destruct st as [db|]; [|discriminate]. rewrite me_run.
  destruct (ObjectId.of_str user_id); [|discriminate].
  destruct (List.find _ _); discriminate.
Qed.

Lemma me_invalid_id (db : Database) (user_id : string) :
  ObjectId.of_str user_id = None ->
  me user_id (Some db)
  = ([], Some db, Raise (HTTPException 400 "Invalid user id")).
Proof. intros H. now rewrite me_run, H. Qed.

Lemma me_unknown_id (db : Database) (user_id : string) (o : ObjectId.t) :
  ObjectId.of_str user_id = Some o ->
  (forall s, In s (collection db "user") -> _id s <> o) ->
  me user_id (Some db)
  = ([OpFindOne "user" (by_id o)], Some db,
     Raise (HTTPException 400 "Invalid user id")).
Proof.
  intros Ho Hnone. rewrite me_run, Ho.
  destruct (List.find _ _) as [s|] eqn:Hfind; [|reflexivity].
  apply find_some in Hfind as [Hin Hsel]. unfold by_id in Hsel.
  rewrite selects_id in Hsel. apply N.eqb_eq in Hsel.
  destruct (Hnone s Hin). congruence.
Qed.

(** C1: GET /me with the store available and a well-formed identifier that no
    stored user has.  The identifier parses, the lookup finds nothing, the
    handler raises its 404 inside the [try] block, and the surrounding
    [except Exception] turns it into 400 "Invalid user id". *)
Theorem me_unissued_id_is_bad_request :
  ObjectId.of_str Sample.unissued = Some 0x507f1f77bcf86cd799439011%N /\
  List.find (selects (by_id 0x507f1f77bcf86cd799439011%N))
    (collection Sample.one_user "user") = None /\
  me Sample.unissued (Some Sample.one_user)
  = ([OpFindOne "user" (by_id 0x507f1f77bcf86cd799439011%N)],
     Some Sample.one_user,
     Raise (HTTPException 400 "Invalid user id")).
Proof.
  assert (Ho : ObjectId.of_str Sample.unissued = Some 0x507f1f77bcf86cd799439011%N)
    by by_vm.
  split; [exact Ho|]. split; [by_vm|].
  apply me_unknown_id; [exact Ho|].
  intros s [<-|[]]. vm_compute. discriminate.
Qed.

(** ** POST /user/plan with a plan outside the three tiers *)

(** C2: a plan-update request whose plan is outside free, plus, pro, served
    by an available store (the unavailable store is C8's case), raises 400
    "Invalid plan" before any call on the store, and the store, the stored
    plan included, is left as it was. *)
Theorem update_plan_invalid_plan (db : Database) (p : PlanPayload.t) :
  PlanPayload.plan p ∉ plans ->
  update_plan p (Some db) = ([], Some db, Raise (HTTPException 400 "Invalid plan")).
Proof.
  intros Hplan. rewrite update_plan_run.
  now rewrite bool_decide_false by exact Hplan.
Qed.

Lemma update_plan_invalid_plan_witness :
  update_plan Sample.gold (Some Sample.one_user)
  = ([], Some Sample.one_user, Raise (HTTPException 400 "Invalid plan")).
Proof.
  apply (update_plan_invalid_plan Sample.one_user Sample.gold).
  apply (proj1 (bool_decide_eq_false _)). by_vm.
Defined.

(** ** Signup and login *)

Lemma user_dump_email (u : User.t) :
  model_dump u !! "email" = Some (VStr (User.email u)).
Proof. reflexivity. Qed.

Lemma user_dump_password_hash (u : User.t) :
  model_dump u !! "password_hash" = Some (VStr (User.password_hash u)).
Proof. reflexivity. Qed.

Lemma user_dump_plan (u : User.t) :
  model_dump u !! "plan" = Some (VStr (User.plan u)).
Proof. reflexivity. Qed.

Lemma user_dump_username (u : User.t) :
  model_dump u !! "username" = Some (VStr (User.username u)).
Proof. reflexivity. Qed.

Lemma find_appended_some {A} (p : A -> bool) (l : list A) (x : A) :
  p x = true -> exists y, List.find p (l ++ [x]) = Some y.
Proof.
  intros Hx. destruct (List.find p (l ++ [x])) as [y|] eqn:Hfind; [eauto|].
  pose proof (find_none _ _ Hfind x) as Hnone.
  rewrite Hnone in Hx; [discriminate|]. apply in_or_app. right. now left.
Qed.


Lemma outcome_inj {A} (t t' : list StoreOp) (s s' : State) (a a' : A) :
  (t, s, Return a) = (t', s', Return a') -> t = t' /\ s = s' /\ a = a'.
Proof. intros [= -> -> ->]. auto. Qed.

(** What a successful signup did. *)
Lemma signup_inv (p : AuthPayload.t) (st st' : State) (tr : list StoreOp)
    (r : option Doc) :
  signup p st = (tr, st', Return r) ->
  exists (db : Database) (o : ObjectId.t),
    let s := {| _id := o; body := model_dump (signup_user p) |} in
    st = Some db /\
    List.find (selects (by_email (AuthPayload.email p))) (collection db "user") = None /\
    Mongo.next_id (collection db "user") = Some o /\
    st' = Some (<["user" := (collection db "user" ++ [s])%list]> db) /\
    r = to_str_id (Some (document s)).
Proof.
  destruct st as [db|]; [|discriminate]. rewrite signup_run. cbn zeta.
  destruct (List.find _ _) eqn:Hfind; [discriminate|].
  destruct (Mongo.next_id _) as [o|] eqn:Hnext; [|discriminate].
  intros H; apply outcome_inj in H as (<- & <- & <-). exists db, o. cbn zeta. auto.
Qed.

(** Signup goes through when the email is new and an identifier is left. *)
Lemma signup_succeeds (db : Database) (p : AuthPayload.t) :
  List.find (selects (by_email (AuthPayload.email p))) (collection db "user") = None ->
  (Mongo.id_ceiling (collection db "user") < ObjectId.bound)%N ->
  exists tr st' r, signup p (Some db) = (tr, st', Return (Some r)).
Proof.
  intros Hnew Hroom. rewrite signup_run. cbn zeta.
  rewrite Hnew, (next_id_room _ Hroom), to_str_id_document. eauto.
Qed.

(** C3: when a signup has succeeded, a second signup with the same email
    (whatever its password and username) runs one lookup, raises the
    conflict error 400 "Email already registered", and leaves the store as the
    first signup left it: no document is inserted. *)
Theorem signup_twice_conflict (st st' : State) (p1 p2 : AuthPayload.t)
    (tr : list StoreOp) (r : option Doc) :
  signup p1 st = (tr, st', Return r) ->
  AuthPayload.email p2 = AuthPayload.email p1 ->
  signup p2 st'
  = ([OpFindOne "user" (by_email (AuthPayload.email p2))], st',
     Raise (HTTPException 400 "Email already registered")).
Proof.
  intros Hfirst Hemail.
  apply signup_inv in Hfirst as (db & o & _ & _ & _ & -> & _).
  rewrite signup_run, collection_insert. cbn zeta.
  destruct (find_appended_some (selects (by_email (AuthPayload.email p2)))
              (collection db "user")
              {| _id := o; body := model_dump (signup_user p1) |}) as [y ->];
    [|reflexivity].
  unfold by_email. apply selects_str; [discriminate|].
  rewrite Hemail. apply user_dump_email.
Qed.

Lemma signup_twice_conflict_witness :
  signup Sample.alice_typo (Some Sample.one_user)
  = ([OpFindOne "user" (by_email "a@x.com")], Some Sample.one_user,
     Raise (HTTPException 400 "Email already registered")).
Proof.
  apply (signup_twice_conflict Sample.empty (Some Sample.one_user)
           Sample.alice Sample.alice_typo
           (signup Sample.alice Sample.empty).1.1
           (match (signup Sample.alice Sample.empty).2 with
            | Return d => d
            | Raise _ => None
            end)).
  - by_vm.
  - reflexivity.
Defined.

Lemma selects_credentials (p : AuthPayload.t) (s : Stored) :
  selects (by_credentials p) s = true <->
  body s !! "email" = Some (VStr (AuthPayload.email p)) /\
  body s !! "password_hash"
  = Some (VStr (hash_password (AuthPayload.password p))).
Proof.
  unfold by_credentials. rewrite selects_cons, andb_true_iff.
  rewrite !selects_str by discriminate. reflexivity.
Qed.

(** C4: after a successful signup, a login with the same email and password
    succeeds, and it returns the very document the signup returned: its
    email is the signup email and its id is the id the signup gave. *)
Theorem signup_then_login (st st' : State) (p p' : AuthPayload.t)
    (tr : list StoreOp) (r : option Doc) :
  signup p st = (tr, st', Return r) ->
  AuthPayload.email p' = AuthPayload.email p ->
  AuthPayload.password p' = AuthPayload.password p ->
  exists (u : Doc) (o : ObjectId.t),
    login p' st' = ([OpFindOne "user" (by_credentials p')], st', Return (Some u)) /\
    r = Some u /\
    u !! "email" = Some (VStr (AuthPayload.email p)) /\
    u !! "id" = Some (VStr (ObjectId.str o)) /\
    u !! "_id" = None.
Proof.
  intros Hsignup Hemail Hpw.
  apply signup_inv in Hsignup as (db & o & _ & Hnew & _ & -> & ->).
  set (s := {| _id := o; body := model_dump (signup_user p) |}).
  exists (<["id" := VStr (ObjectId.str o)]> (delete "_id" (body s))), o.
  rewrite login_run, collection_insert.
  rewrite (find_appended _ _ s).
  - rewrite to_str_id_document.
    split; [reflexivity|]. split; [reflexivity|]. split; [|split].
    + rewrite lookup_insert_ne, lookup_delete_ne by discriminate.
      apply user_dump_email.
    + apply lookup_insert_eq.
    + rewrite lookup_insert_ne by discriminate. apply lookup_delete_eq.
  - intros y Hy. pose proof (find_none _ _ Hnew y Hy) as Hno.
    unfold by_credentials. rewrite selects_cons.
    unfold by_email in Hno. rewrite Hemail, Hno. reflexivity.
  - apply selects_credentials. rewrite Hemail, Hpw. split.
    + apply user_dump_email.
    + apply user_dump_password_hash.
Qed.

Lemma signup_then_login_witness :
  exists (u : Doc) (o : ObjectId.t),
    login Sample.alice (Some Sample.one_user)
    = ([OpFindOne "user" (by_credentials Sample.alice)],
       Some Sample.one_user, Return (Some u)) /\
    (signup Sample.alice Sample.empty).2 = Return (Some u) /\
    u !! "email" = Some (VStr "a@x.com") /\
    u !! "id" = Some (VStr (ObjectId.str o)) /\
    u !! "_id" = None.
Proof.
  destruct (signup_then_login Sample.empty (Some Sample.one_user)
              Sample.alice Sample.alice
              (signup Sample.alice Sample.empty).1.1
              (match (signup Sample.alice Sample.empty).2 with
               | Return d => d
               | Raise _ => None
               end))
    as (u & o & Hlogin & Hr & Hemail & Hid & Hnoid).
  - by_vm.
  - reflexivity.
  - reflexivity.
  - exists u, o. repeat split; try assumption.
    rewrite <- Hr. by_vm.
Defined.

(** The example of section 8 of the specification. *)
Example signup_alice :
  (signup Sample.alice Sample.empty).1.2 = Some Sample.one_user /\
  (signup Sample.alice Sample.empty).2
  = Return (Some (<["id" := VStr "000000000000000000000000"]>
                    (model_dump {| User.email := "a@x.com";
                                   User.username := "a";
                                   User.password_hash := hash_password "pw1";
                                   User.plan := "free" |}))).
Proof. split; by_vm. Qed.

(** ** Login *)

Lemma credentials_match_selects (p : AuthPayload.t) (s : Stored) :
  credentials_match p s <-> selects (by_credentials p) s = true.
Proof.
  unfold credentials_match. rewrite selects_credentials.
  rewrite !document_field by discriminate. reflexivity.
Qed.

(** C5: login over the stored users (the unavailable store is C8's case)
    returns a user only when a stored user has the request email and the
    digest of the request password, and then it returns that user's
    document; when no stored user has both (a wrong password for an existing
    email included), login raises 401 "Invalid credentials".  The store is
    left as it was. *)
Theorem login_spec (db : Database) (p : AuthPayload.t) :
  (forall tr st' r,
      login p (Some db) = (tr, st', Return r) ->
      st' = Some db /\
      exists s, In s (collection db "user") /\ credentials_match p s /\
                r = to_str_id (Some (document s))) /\
  ((forall s, In s (collection db "user") -> ~ credentials_match p s) ->
   login p (Some db)
   = ([OpFindOne "user" (by_credentials p)], Some db,
      Raise (HTTPException 401 "Invalid credentials"))).
Proof.
  rewrite login_run. split.
  - intros tr st' r.
    destruct (List.find _ _) as [s|] eqn:Hfind; [|discriminate].
    intros H; apply outcome_inj in H as (<- & <- & <-). split; [reflexivity|].
    apply find_some in Hfind as [Hin Hsel].
    exists s. split; [exact Hin|]. split; [|reflexivity].
    now apply credentials_match_selects.
  - intros Hnone.
    destruct (List.find _ _) as [s|] eqn:Hfind; [|reflexivity].
    apply find_some in Hfind as [Hin Hsel].
    destruct (Hnone s Hin). now apply credentials_match_selects.
Qed.

Lemma login_spec_witness :
  login Sample.alice_typo (Some Sample.one_user)
  = ([OpFindOne "user" (by_credentials Sample.alice_typo)],
     Some Sample.one_user,
     Raise (HTTPException 401 "Invalid credentials")).
Proof.
  apply (proj2 (login_spec Sample.one_user Sample.alice_typo)).
  intros s [<-|[]] [_ Hhash]. vm_compute in Hhash. discriminate.
Defined.

(** ** Characters *)

Lemma character_dump_user_id (c : Character.t) :
  model_dump c !! "user_id" = Some (VStr (Character.user_id c)).
Proof. reflexivity. Qed.

Lemma character_dump_preview_url (c : Character.t) :
  model_dump c !! "preview_url"
  = Some (match Character.preview_url c with
          | Some u => VStr u
          | None => VNone
          end).
Proof. reflexivity. Qed.

Lemma listed_item (s : Stored) (user_id : string) :
  selects (by_owner user_id) s = true ->
  exists d, to_str_id (Some (document s)) = Some d /\
            d !! "user_id" = Some (VStr user_id).
Proof.
  intros Hsel. rewrite to_str_id_document. eexists. split; [reflexivity|].
  rewrite lookup_insert_ne, lookup_delete_ne by discriminate.
  now apply selects_str in Hsel.
Qed.

Lemma list_characters_negative_limit :
  list_characters "guest" (-1) Sample.empty
  = ([OpFind "character" (by_owner "guest")], Sample.empty, Return []) /\
  ~ (Z.of_nat (length (@nil (option Doc))) <= -1)%Z.
Proof. split; [reflexivity | simpl; lia]. Qed.

(** C7 (amended): whatever characters are stored, for every user_id and
    every limit that is not negative, the listing returns at most limit
    items; and for every limit, each returned item is a document whose
    user_id is exactly the query parameter. *)
Theorem list_characters_bounded_and_owned (st st' : State) (user_id : string)
    (limit : Z) (tr : list StoreOp) (items : list (option Doc)) :
  list_characters user_id limit st = (tr, st', Return items) ->
  ((0 <= limit)%Z -> (Z.of_nat (length items) <= limit)%Z) /\
  (forall item, In item items ->
     exists d, item = Some d /\ d !! "user_id" = Some (VStr user_id)).
Proof.
  destruct st as [db|]; [|discriminate]. rewrite list_characters_run.
  intros H; apply outcome_inj in H as (<- & <- & <-). split.
  - intros Hlimit. rewrite length_fmap, length_take. lia.
  - intros item Hin. apply in_map_iff in Hin as (s & <- & Hs).
    apply list_elem_of_In, elem_of_take in Hs as (i & Hs & _).
    apply list_elem_of_lookup_2, list_elem_of_In, filter_In in Hs as [_ Hsel].
    now apply listed_item.
Qed.

Lemma list_characters_bounded_and_owned_witness :
  exists items,
    list_characters "guest" 1 (Some Sample.crowded)
    = ([OpFind "character" (by_owner "guest")], Some Sample.crowded,
       Return items) /\
    (Z.of_nat (length items) <= 1)%Z /\
    (forall item, In item items ->
       exists d, item = Some d /\ d !! "user_id" = Some (VStr "guest")).
Proof.
  eexists. split; [rewrite list_characters_run; reflexivity|].
  pose proof (list_characters_bounded_and_owned (Some Sample.crowded)
                (Some Sample.crowded) "guest" 1 _ _
                (list_characters_run Sample.crowded "guest" 1)) as [Hlen Hown].
  split; [apply Hlen; lia | exact Hown].
Defined.

Lemma generate_character_inv (p : CharacterPayload.t) (user_id : option string)
    (st st' : State) (tr : list StoreOp) (r : option Doc) :
  generate_character p user_id st = (tr, st', Return r) ->
  exists (db : Database) (o : ObjectId.t),
    let s := {| _id := o; body := model_dump (generated_character p user_id) |} in
    st = Some db /\
    Mongo.next_id (collection db "character") = Some o /\
    st' = Some (<["character" := (collection db "character" ++ [s])%list]> db) /\
    r = to_str_id (Some (document s)).
Proof.
  destruct st as [db|]; [|discriminate]. rewrite generate_character_run.
  cbn zeta. destruct (Mongo.next_id _) as [o|] eqn:Hnext; [|discriminate].
  intros H; apply outcome_inj in H as (<- & <- & <-). exists db, o. cbn zeta. auto.
Qed.

(** With twenty guest characters stored, the twenty-first is generated and
    stored, and the listing with the default limit does not return it. *)
Lemma generate_guest_not_listed :
  exists (r : option Doc) (items : list (option Doc)),
    returned Sample.generated = Some r /\
    has_id "000000000000000000000014" r = true /\
    returned Sample.listing = Some (Many items) /\
    length items = 20%nat /\
    ~ In r items.
Proof.
  exists (default None (returned Sample.generated)),
    (match returned Sample.listing with Some (Many l) => l | _ => [] end).
  split; [by_vm|]. split; [by_vm|]. split; [by_vm|]. split; [by_vm|].
  intros Hin.
  assert (Hex : existsb (has_id "000000000000000000000014")
                  (match returned Sample.listing with
                   | Some (Many l) => l
                   | _ => []
                   end) = true).
  { apply existsb_exists. eexists. split; [exact Hin | by_vm]. }
  assert (Hno : existsb (has_id "000000000000000000000014")
                  (match returned Sample.listing with
                   | Some (Many l) => l
                   | _ => []
                   end) = false) by by_vm.
  congruence.
Qed.

(** C6 (amended): a generation with no user_id that succeeds appends to the
    character collection one document whose user_id is the literal "guest"
    and whose preview_url is the fixed placeholder, and returns it; a
    listing with user_id=guest then returns that document whenever limit
    exceeds the number of guest characters stored before it. *)
Theorem generate_guest_listed (st st' : State) (p : CharacterPayload.t)
    (tr : list StoreOp) (r : option Doc) :
  generate_character p None st = (tr, st', Return r) ->
  exists (db : Database) (o : ObjectId.t) (c : Character.t),
    let s := {| _id := o; body := model_dump c |} in
    st = Some db /\
    st' = Some (<["character" := (collection db "character" ++ [s])%list]> db) /\
    Character.user_id c = "guest" /\
    Character.preview_url c = Some preview /\
    Character.prompt c = CharacterPayload.prompt p /\
    Character.settings c = CharacterPayload.settings p /\
    r = to_str_id (Some (document s)) /\
    forall limit : Z,
      (Z.of_nat (length (List.filter (selects (by_owner "guest"))
                           (collection db "character"))) < limit)%Z ->
      exists items,
        list_characters "guest" limit st'
        = ([OpFind "character" (by_owner "guest")], st', Return items) /\
        In r items.
Proof.
  intros Hgen.
  apply generate_character_inv in Hgen as (db & o & -> & _ & -> & ->).
  exists db, o, (generated_character p None). cbn zeta.
  repeat (split; [reflexivity|]).
  intros limit Hlimit. eexists. split; [apply list_characters_run|].
  rewrite collection_insert, List.filter_app. cbn [List.filter].
  assert (Hsel : selects (by_owner "guest")
                   {| _id := o; body := model_dump (generated_character p None) |}
                 = true).
  { apply selects_str; [discriminate|]. apply character_dump_user_id. }
  rewrite Hsel, take_ge by (rewrite length_app; simpl; lia).
  apply in_map_iff. eexists. split; [reflexivity|].
  apply in_or_app. right. now left.
Qed.

Lemma generate_guest_listed_witness :
  exists (r : option Doc) (items : list (option Doc)),
    returned Sample.generated = Some r /\
    list_characters "guest" 21 (state_after Sample.generated)
    = ([OpFind "character" (by_owner "guest")], state_after Sample.generated,
       Return items) /\
    In r items.
Proof.
  destruct (generate_guest_listed (Some Sample.crowded)
              (state_after Sample.generated) Sample.elf
              (trace_of Sample.generated)
              (default None (returned Sample.generated)))
    as (db & o & c & Hdb & Hst & _ & _ & _ & _ & Hr & Hlist).
  - by_vm.
  - injection Hdb as <-.
    destruct (Hlist 21%Z) as (items & Hitems & Hin).
    + apply Z.ltb_lt. by_vm.
    + exists (default None (returned Sample.generated)), items.
      split; [by_vm|]. split; assumption.
Defined.

(** ** Identifier translation *)

Lemma translation_of_document (s : Stored) :
  translation_of s (to_str_id (Some (document s))).
Proof.
  rewrite to_str_id_document. eexists. split; [reflexivity|].
  split; [apply lookup_insert_eq|]. split.
  - rewrite lookup_insert_ne by discriminate. apply lookup_delete_eq.
  - intros k Hk Hk'. rewrite lookup_insert_ne, lookup_delete_ne by congruence.
    symmetry. now apply document_field.
Qed.

Lemma fmap_run {A B} (f : A -> B) (m : M A) (st : State) :
  (f <$> m) st
  = match m st with
    | (t, st1, Return a) => ((t ++ [])%list, st1, Return (f a))
    | (t, st1, Raise e) => (t, st1, Raise e)
    end.
Proof.
  unfold fmap, M_fmap, bind, ret. destruct (m st) as [[t st1] [a|e]]; reflexivity.
Qed.

Lemma fmap_run_inv {A B} (f : A -> B) (m : M A) (st st' : State)
    (tr : list StoreOp) (b : B) :
  (f <$> m) st = (tr, st', Return b) ->
  exists a, m st = (tr, st', Return a) /\ b = f a.
Proof.
  rewrite fmap_run. destruct (m st) as [[t st1] [a|e]]; [|discriminate].
  rewrite app_nil_r. intros H; apply outcome_inj in H as (<- & <- & <-). eauto.
Qed.

Lemma appended_in {A} (l : list A) (x : A) : In x (l ++ [x]).
Proof. apply in_or_app. right. now left. Qed.

Lemma signup_translated (p : AuthPayload.t) (st st' : State)
    (tr : list StoreOp) (r : option Doc) :
  signup p st = (tr, st', Return r) ->
  exists db' s, st' = Some db' /\ In s (collection db' "user") /\
                translation_of s r.
Proof.
  intros H. apply signup_inv in H as (db & o & _ & _ & _ & -> & ->).
  eexists _, _. split; [reflexivity|]. rewrite collection_insert.
  split; [apply appended_in | apply translation_of_document].
Qed.

Lemma login_translated (p : AuthPayload.t) (st st' : State)
    (tr : list StoreOp) (r : option Doc) :
  login p st = (tr, st', Return r) ->
  exists db' s, st' = Some db' /\ In s (collection db' "user") /\
                translation_of s r.
Proof.
  destruct st as [db|]; [|discriminate]. rewrite login_run.
  destruct (List.find _ _) as [s|] eqn:Hfind; [|discriminate].
  intros H; apply outcome_inj in H as (<- & <- & <-).
  apply find_some in Hfind as [Hin _].
  exists db, s. split; [reflexivity|].
  split; [exact Hin | apply translation_of_document].
Qed.

Lemma me_translated (user_id : string) (st st' : State)
    (tr : list StoreOp) (r : option Doc) :
  me user_id st = (tr, st', Return r) ->
  exists db' s, st' = Some db' /\ In s (collection db' "user") /\
                translation_of s r.
Proof.
  destruct st as [db|]; [|discriminate]. rewrite me_run.
  destruct (ObjectId.of_str _); [|discriminate].
  destruct (List.find _ _) as [s|] eqn:Hfind; [|discriminate].
  intros H; apply outcome_inj in H as (<- & <- & <-).
  apply find_some in Hfind as [Hin _].
  exists db, s. split; [reflexivity|].
  split; [exact Hin | apply translation_of_document].
Qed.

Lemma generate_character_translated (p : CharacterPayload.t)
    (user_id : option string) (st st' : State)
    (tr : list StoreOp) (r : option Doc) :
  generate_character p user_id st = (tr, st', Return r) ->
  exists db' s, st' = Some db' /\ In s (collection db' "character") /\
                translation_of s r.
Proof.
  intros H. apply generate_character_inv in H as (db & o & _ & _ & -> & ->).
  eexists _, _. split; [reflexivity|]. rewrite collection_insert.
  split; [apply appended_in | apply translation_of_document].
Qed.

Lemma list_characters_translated (user_id : string) (limit : Z)
    (st st' : State) (tr : list StoreOp) (items : list (option Doc)) :
  list_characters user_id limit st = (tr, st', Return items) ->
  exists db', st' = Some db' /\
    forall d, In d items ->
      exists s, In s (collection db' "character") /\ translation_of s d.
Proof.
  destruct st as [db|]; [|discriminate]. rewrite list_characters_run.
  intros H; apply outcome_inj in H as (<- & <- & <-).
  exists db. split; [reflexivity|]. intros d Hin.
  apply in_map_iff in Hin as (s & <- & Hs).
  apply list_elem_of_In, elem_of_take in Hs as (i & Hs & _).
  apply list_elem_of_lookup_2, list_elem_of_In, filter_In in Hs as [Hs _].
  exists s. split; [exact Hs | apply translation_of_document].
Qed.

Lemma update_plan_translated (p : PlanPayload.t) (st st' : State)
    (tr : list StoreOp) (r : option Doc) :
  update_plan p st = (tr, st', Return r) ->
  exists db' s, st' = Some db' /\ In s (collection db' "user") /\
                translation_of s r.
Proof.
  destruct st as [db|]; [|discriminate]. rewrite update_plan_run.
  destruct (bool_decide _); [|discriminate].
  destruct (ObjectId.of_str _) as [o|]; [|discriminate]. cbn zeta.
  destruct (Mongo.update_first _ _ _) as [users'|] eqn:Hupd; [|discriminate].
  intros H; apply outcome_inj in H as (<- & <- & <-).
  apply update_first_find in Hupd as (s & _ & Hfind);
    [|intros s; apply selects_id_apply_set].
  rewrite Hfind. apply find_some in Hfind as [Hin _].
  eexists _, _. split; [reflexivity|]. rewrite collection_insert.
  split; [exact Hin | apply translation_of_document].
Qed.

(** C9: every document in a successful response of the six data endpoints
    is a document the store holds, in the collection the endpoint serves,
    with the internal identifier replaced: ["id"] carries the string form of
    that document's ObjectId, there is no ["_id"] field, and every other
    field is as stored; no response holds [None] in place of a document. *)
Theorem responses_translated (req : Request) (st st' : State)
    (tr : list StoreOp) (resp : Response) :
  dispatch req st = (tr, st', Return resp) ->
  exists db',
    st' = Some db' /\
    forall d, In d (documents_of resp) ->
      exists s, In s (collection db' (collection_of req)) /\
                translation_of s d.
Proof.
  destruct req; cbn [dispatch collection_of]; intros H;
    apply fmap_run_inv in H as (a & H & ->); cbn [documents_of].
  - apply signup_translated in H as (db' & s & -> & Hin & Ht).
    exists db'. split; [reflexivity|]. intros d [<-|[]]. eauto.
  - apply login_translated in H as (db' & s & -> & Hin & Ht).
    exists db'. split; [reflexivity|]. intros d [<-|[]]. eauto.
  - apply me_translated in H as (db' & s & -> & Hin & Ht).
    exists db'. split; [reflexivity|]. intros d [<-|[]]. eauto.
  - apply generate_character_translated in H as (db' & s & -> & Hin & Ht).
    exists db'. split; [reflexivity|]. intros d [<-|[]]. eauto.
  - apply list_characters_translated in H as (db' & -> & Hall).
    exists db'. split; [reflexivity | exact Hall].
  - apply update_plan_translated in H as (db' & s & -> & Hin & Ht).
    exists db'. split; [reflexivity|]. intros d [<-|[]]. eauto.
Qed.

Lemma responses_translated_witness :
  exists (d : option Doc) (s : Stored),
    returned (dispatch (PostLogin Sample.alice) (Some Sample.one_user))
    = Some (One d) /\
    In s (collection Sample.one_user "user") /\
    translation_of s d /\
    has_id "000000000000000000000000" d = true.
Proof.
  remember (match returned (dispatch (PostLogin Sample.alice)
                              (Some Sample.one_user)) with
            | Some (One d) => d
            | _ => None
            end) as d0 eqn:Hd0.
  assert (Hrun : dispatch (PostLogin Sample.alice) (Some Sample.one_user)
                 = (trace_of (dispatch (PostLogin Sample.alice)
                                (Some Sample.one_user)),
                    Some Sample.one_user, Return (One d0)))
    by (rewrite Hd0; by_vm).
  destruct (responses_translated _ _ _ _ _ Hrun) as (db' & Hdb' & Hall).
  injection Hdb' as <-.
  assert (Hd : In d0 (documents_of (One d0))) by (left; reflexivity).
  destruct (Hall d0 Hd) as (s & Hin & Ht).
  exists d0, s. split; [rewrite Hd0; by_vm|]. split; [exact Hin|].
  split; [exact Ht|]. rewrite Hd0. by_vm.
Defined.

(** ** The frame of a plan update *)

(** C10: a plan update that succeeds rewrites one document of the user
    collection, the one with the requested identifier: its plan becomes the
    requested plan, its identifier and its every other field (email,
    username, password_hash) stay as they were, every other user document
    keeps its place and content, the collection keeps its length, and every
    other collection is left as it was. *)
Theorem update_plan_frame (st st' : State) (p : PlanPayload.t)
    (tr : list StoreOp) (r : option Doc) :
  update_plan p st = (tr, st', Return r) ->
  exists (db db' : Database) (i : nat) (u u' : Stored),
    st = Some db /\ st' = Some db' /\
    collection db "user" !! i = Some u /\
    ObjectId.of_str (PlanPayload.user_id p) = Some (_id u) /\
    collection db' "user" = <[i := u']> (collection db "user") /\
    _id u' = _id u /\
    body u' = <["plan" := VStr (PlanPayload.plan p)]> (body u) /\
    (forall k, k <> "plan" -> document u' !! k = document u !! k) /\
    length (collection db' "user") = length (collection db "user") /\
    (forall j, j <> i -> collection db' "user" !! j = collection db "user" !! j) /\
    (forall name, name <> "user" -> db' !! name = db !! name).
Proof.
  destruct st as [db|]; [|discriminate]. rewrite update_plan_run.
  destruct (bool_decide _); [|discriminate].
  destruct (ObjectId.of_str _) as [o|]; [|discriminate]. cbn zeta.
  destruct (Mongo.update_first _ _ _) as [users'|] eqn:Hupd; [|discriminate].
  intros H; apply outcome_inj in H as (<- & <- & <-).
  apply update_first_spec in Hupd as (i & u & Hi & Hsel & ->).
  unfold by_id in Hsel. rewrite selects_id in Hsel. apply N.eqb_eq in Hsel.
  exists db, (<["user" := <[i := Mongo.apply_set (set_plan (PlanPayload.plan p)) u]>
                            (collection db "user")]> db),
    i, u, (Mongo.apply_set (set_plan (PlanPayload.plan p)) u).
  rewrite collection_insert.
  repeat split; try reflexivity.
  - exact Hi.
  - now rewrite Hsel.
  - intros k Hk. unfold document. simpl.
    destruct (decide (k = "_id")) as [->|Hid].
    + now rewrite !lookup_insert_eq.
    + now rewrite !(lookup_insert_ne _ "_id" k), lookup_insert_ne by congruence.
  - apply length_insert.
  - intros j Hj. now apply list_lookup_insert_ne.
  - intros name Hname. now apply lookup_insert_ne.
Qed.

Lemma update_plan_frame_witness :
  exists (db' : Database) (u u' : Stored),
    state_after (update_plan Sample.upgrade (Some Sample.one_user)) = Some db' /\
    collection Sample.one_user "user" !! 0%nat = Some u /\
    collection db' "user" = [u'] /\
    _id u' = _id u /\
    body u' = <["plan" := VStr "pro"]> (body u) /\
    (forall name, name <> "user" -> db' !! name = Sample.one_user !! name).
Proof.
  destruct (update_plan_frame (Some Sample.one_user)
              (state_after (update_plan Sample.upgrade (Some Sample.one_user)))
              Sample.upgrade
              (trace_of (update_plan Sample.upgrade (Some Sample.one_user)))
              (default None
                 (returned (update_plan Sample.upgrade (Some Sample.one_user)))))
    as (db & db' & i & u & u' & Hdb & Hdb' & Hi & Hoid & Hcoll & Hid & Hbody
        & _ & _ & _ & Hother).
  - by_vm.
  - injection Hdb as <-.
    destruct i as [|i]; [|destruct i; discriminate Hi].
    exists db', u, u'. rewrite Hcoll. repeat split; assumption.
Defined.

(** * Further properties of the handlers *)

(** ** to_str_id *)

Lemma to_str_id_unfold (d : Doc) :
  to_str_id (Some d)
  = if bool_decide (d = ∅) then Some d
    else match d !! "_id" with
         | Some v =>
             if Py.truthy v
             then Some (<["id" := VStr (Py.str v)]> (delete "_id" d))
             else Some d
         | None => Some d
         end.
Proof.
  unfold to_str_id, Py.truthy_dict. destruct (bool_decide (d = ∅)); reflexivity.
Qed.

(** X1: translating a response twice is the same as translating it once:
    after the first pass the dictionary has no ["_id"] left to replace. *)
Theorem to_str_id_idempotent (doc : option Doc) :
  to_str_id (to_str_id doc) = to_str_id doc.
Proof.
  destruct doc as [d|]; [|reflexivity].
  rewrite (to_str_id_unfold d).
  destruct (bool_decide (d = ∅)) eqn:Hempty.
  { now rewrite to_str_id_unfold, Hempty. }
  destruct (d !! "_id") as [v|] eqn:Hid.
  - destruct (Py.truthy v) eqn:Hv.
    + rewrite to_str_id_unfold.
      rewrite bool_decide_false by apply insert_non_empty.
      rewrite lookup_insert_ne by discriminate.
      now rewrite lookup_delete_eq.
    + now rewrite to_str_id_unfold, Hempty, Hid, Hv.
  - now rewrite to_str_id_unfold, Hempty, Hid.
Qed.

(** X2: [to_str_id] hands back a dictionary for every dictionary, touches
    no field other than ["id"] and ["_id"], and hands back the very input
    when it has no ["_id"] field; [None] stays [None]. *)
Theorem to_str_id_frame (d : Doc) :
  to_str_id None = None /\
  (exists d', to_str_id (Some d) = Some d' /\
     forall k, k <> "id" -> k <> "_id" -> d' !! k = d !! k) /\
  (d !! "_id" = None -> to_str_id (Some d) = Some d).
Proof.
  split; [reflexivity|]. rewrite to_str_id_unfold. split.
  - destruct (bool_decide (d = ∅)); [eauto|].
    destruct (d !! "_id") as [v|]; [|eauto].
    destruct (Py.truthy v); [|eauto].
    eexists. split; [reflexivity|]. intros k Hk Hk'.
    rewrite lookup_insert_ne by congruence. now apply lookup_delete_ne.
  - intros ->. now destruct (bool_decide (d = ∅)).
Qed.

(** ** The default username *)

(** X6: [s.split(sep)[0]] is the part of [s] before the first separator:
    it holds no separator, [s] continues after it with a separator or not at
    all, and it is the whole of [s] when [s] holds no separator. *)
Theorem split_head_spec (sep : ascii) (s : string) :
  Py.contains sep (Py.split_head sep s) = false /\
  (exists rest, s = Py.split_head sep s ++ rest /\
                (rest = "" \/ exists r, rest = String sep r)) /\
  (Py.contains sep s = false -> Py.split_head sep s = s).
Proof.
  induction s as [|c s (IHno & (rest & IHeq & IHrest) & IHall)]; simpl.
  - split; [reflexivity|]. split; [|reflexivity]. exists "". auto.
  - destruct (Ascii.eqb c sep) eqn:Hc; simpl.
    + split; [reflexivity|]. split; [|discriminate].
      apply Ascii.eqb_eq in Hc as ->. exists (String sep s). eauto.
    + rewrite Hc. simpl. split; [exact IHno|]. split.
      * exists rest. split; [|exact IHrest].
        change (String c s = String c (Py.split_head sep s ++ rest)).
        now f_equal.
      * intros Hno. now rewrite IHall.
Qed.

(** ** Handlers that only read *)

Lemma login_state_after (p : AuthPayload.t) (st : State) :
  state_after (login p st) = st.
Proof.
  destruct st as [db|]; [|reflexivity].
  rewrite login_run. now destruct (List.find _ _).
Qed.

Lemma me_state_after (user_id : string) (st : State) :
  state_after (me user_id st) = st.
Proof.
  destruct st as [db|]; [|reflexivity]. rewrite me_run.
  destruct (ObjectId.of_str user_id); [|reflexivity].
  now destruct (List.find _ _).
Qed.

Lemma list_characters_state_after (user_id : string) (limit : Z) (st : State) :
  state_after (list_characters user_id limit st) = st.
Proof.
  destruct st as [db|]; [|reflexivity]. now rewrite list_characters_run.
Qed.

(** X9: login, me and the character listing never change the store,
    whatever the request and whether they answer or raise. *)
Theorem read_only_handlers (st : State) :
  (forall p, state_after (login p st) = st) /\
  (forall user_id, state_after (me user_id st) = st) /\
  (forall user_id limit, state_after (list_characters user_id limit st) = st).
Proof.
  split; [|split].
  - intros p. apply login_state_after.
  - intros u. apply me_state_after.
  - intros u limit. apply list_characters_state_after.
Qed.

Lemma to_str_id_frame_witness : to_str_id (Some root) = Some root.
Proof. apply (proj2 (proj2 (to_str_id_frame root))). reflexivity. Defined.

Lemma split_head_spec_witness : Py.split_head "@" "nobody" = "nobody".
Proof. apply (proj2 (proj2 (split_head_spec "@" "nobody"))). reflexivity. Defined.

(** ** POST /user/plan: the user is not there *)

Lemma update_plan_never_not_found (st st' : State) (p : PlanPayload.t)
    (tr : list StoreOp) (detail : string) :
  update_plan p st <> (tr, st', Raise (HTTPException 404 detail)).
Proof.
  destruct st as [db|]; [|discriminate]. rewrite update_plan_run.
  destruct (bool_decide _); [|discriminate].
  destruct (ObjectId.of_str _); [|discriminate]. cbn zeta.
  destruct (Mongo.update_first _ _ _); discriminate.
Qed.

(** X3: with the store available and a valid plan, a plan update whose
    user_id is malformed, or is well formed and matches no stored user,
    raises 400 "Invalid user id" and leaves the store as it was: the 404 the
    handler raises for the second case is caught by its own
    [except Exception]. *)
Theorem update_plan_no_such_user (db : Database) (p : PlanPayload.t) :
  PlanPayload.plan p ∈ plans ->
  (forall o s, ObjectId.of_str (PlanPayload.user_id p) = Some o ->
               In s (collection db "user") -> _id s <> o) ->
  exists tr,
    update_plan p (Some db)
    = (tr, Some db, Raise (HTTPException 400 "Invalid user id")).
Proof.
  intros Hplan Hnone. rewrite update_plan_run.
  rewrite bool_decide_true by exact Hplan.
  destruct (ObjectId.of_str _) as [o|]; [|eauto]. cbn zeta.
  destruct (Mongo.update_first _ _ _) as [users'|] eqn:Hupd; [|eauto].
  apply update_first_spec in Hupd as (i & u & Hi & Hsel & _).
  unfold by_id in Hsel. rewrite selects_id in Hsel. apply N.eqb_eq in Hsel.
  destruct (Hnone o u eq_refl); [|congruence].
  apply list_elem_of_In. eapply list_elem_of_lookup_2. exact Hi.
Qed.

Lemma update_plan_no_such_user_witness :
  exists tr,
    update_plan {| PlanPayload.user_id := Sample.unissued;
                   PlanPayload.plan := "plus" |} (Some Sample.one_user)
    = (tr, Some Sample.one_user, Raise (HTTPException 400 "Invalid user id")).
Proof.
  apply (update_plan_no_such_user Sample.one_user
           {| PlanPayload.user_id := Sample.unissued;
              PlanPayload.plan := "plus" |}).
  - apply (proj1 (bool_decide_eq_true _)). by_vm.
  - intros o s Ho [<-|[]]. simpl in Ho.
    assert (Ho' : ObjectId.of_str Sample.unissued
                  = Some 0x507f1f77bcf86cd799439011%N) by by_vm.
    rewrite Ho' in Ho. injection Ho as <-. discriminate.
Defined.

(** ** Signup *)

(** X4: the id a successful signup returns is accepted by GET /me on the
    resulting store, which answers with the very document the signup
    returned and changes nothing. *)
Theorem signup_then_me (st st' : State) (p : AuthPayload.t)
    (tr : list StoreOp) (r : option Doc) :
  signup p st = (tr, st', Return r) ->
  exists (u : Doc) (id : string) (tr' : list StoreOp),
    r = Some u /\ u !! "id" = Some (VStr id) /\
    me id st' = (tr', st', Return r).
Proof.
  intros Hsignup.
  apply signup_inv in Hsignup as (db & o & _ & _ & Hnext & -> & ->).
  set (s := {| _id := o; body := model_dump (signup_user p) |}).
  rewrite to_str_id_document.
  eexists _, (ObjectId.str o), _. split; [reflexivity|].
  split; [apply lookup_insert_eq|].
  rewrite me_run, ObjectId_of_str_str by (eapply next_id_bound; eauto).
  rewrite collection_insert, (find_appended _ _ s).
  - now rewrite to_str_id_document.
  - intros y Hy. unfold by_id. rewrite selects_id. apply N.eqb_neq.
    pose proof (next_id_above _ _ _ Hnext Hy). lia.
  - unfold by_id. rewrite selects_id. apply N.eqb_refl.
Qed.

Lemma signup_then_me_witness :
  exists (u : Doc) (id : string) (tr' : list StoreOp),
    returned (signup Sample.alice Sample.empty) = Some (Some u) /\
    u !! "id" = Some (VStr id) /\
    me id (Some Sample.one_user)
    = (tr', Some Sample.one_user, Return (Some u)).
Proof.
  destruct (signup_then_me Sample.empty (Some Sample.one_user) Sample.alice
              (trace_of (signup Sample.alice Sample.empty))
              (default None (returned (signup Sample.alice Sample.empty))))
    as (u & id & tr' & Hr & Hid & Hme).
  - by_vm.
  - exists u, id, tr'. split; [rewrite <- Hr; by_vm|]. split; [exact Hid|].
    rewrite <- Hr. exact Hme.
Defined.

(** X5: the document a successful signup returns: the request email; the
    supplied username when there is a non-empty one, otherwise the part of
    the email before its first at-sign; the plan "free"; the digest of the
    password under ["password_hash"]; and no field beyond these and
    ["id"], so no plaintext password. *)
Theorem signup_document (st st' : State) (p : AuthPayload.t)
    (tr : list StoreOp) (r : option Doc) :
  signup p st = (tr, st', Return r) ->
  exists u : Doc,
    r = Some u /\
    u !! "email" = Some (VStr (AuthPayload.email p)) /\
    (forall n, AuthPayload.username p = Some n -> n <> "" ->
               u !! "username" = Some (VStr n)) /\
    (AuthPayload.username p = None \/ AuthPayload.username p = Some "" ->
     u !! "username"
     = Some (VStr (Py.split_head "@" (AuthPayload.email p)))) /\
    u !! "plan" = Some (VStr "free") /\
    u !! "password_hash"
    = Some (VStr (hash_password (AuthPayload.password p))) /\
    (forall k, k ∉ ["email"; "username"; "password_hash"; "plan"; "id"] ->
               u !! k = None).
Proof.
  intros Hsignup.
  apply signup_inv in Hsignup as (db & o & _ & _ & _ & _ & ->).
  rewrite to_str_id_document. eexists. split; [reflexivity|]. cbn [body].
  assert (Hfield : forall k, k <> "id" -> k <> "_id" ->
            (<["id" := VStr (ObjectId.str o)]>
               (delete "_id" (model_dump (signup_user p))) : Doc) !! k
            = model_dump (signup_user p) !! k).
  { intros k Hk Hk'. rewrite lookup_insert_ne by congruence.
    now apply lookup_delete_ne. }
  split; [now rewrite Hfield by discriminate|].
  split.
  { intros n Hn Hne. rewrite Hfield, user_dump_username by discriminate.
    cbn [signup_user User.username]. unfold Py.or_str. rewrite Hn.
    now apply String.eqb_neq in Hne as ->. }
  split.
  { intros Hn. rewrite Hfield, user_dump_username by discriminate.
    cbn [signup_user User.username]. unfold Py.or_str.
    now destruct Hn as [-> | ->]. }
  split; [now rewrite Hfield by discriminate|].
  split; [now rewrite Hfield by discriminate|].
  intros k Hk.
  assert (Hne : k <> "email" /\ k <> "username" /\ k <> "password_hash"
                /\ k <> "plan" /\ k <> "id").
  { repeat split; intros ->; apply Hk; set_solver. }
  destruct Hne as (H1 & H2 & H3 & H4 & H5).
  rewrite lookup_insert_ne by congruence.
  destruct (decide (k = "_id")) as [->|H6]; [apply lookup_delete_eq|].
  rewrite lookup_delete_ne by congruence.
  unfold model_dump, User_model.
  now rewrite !lookup_insert_ne, lookup_empty by congruence.
Qed.

Lemma signup_document_witness :
  exists u : Doc,
    returned (signup Sample.bob Sample.empty) = Some (Some u) /\
    u !! "username" = Some (VStr "bobby") /\
    u !! "password" = None.
Proof.
  destruct (signup_document Sample.empty
              (state_after (signup Sample.bob Sample.empty)) Sample.bob
              (trace_of (signup Sample.bob Sample.empty))
              (default None (returned (signup Sample.bob Sample.empty))))
    as (u & Hr & _ & Hname & _ & _ & _ & Hrest).
  - by_vm.
  - exists u. split; [rewrite <- Hr; by_vm|]. split.
    + apply Hname; [reflexivity | discriminate].
    + apply Hrest. intros Hin. apply list_elem_of_In in Hin.
      simpl in Hin. intuition discriminate.
Defined.

(** ** Generation for a named owner *)

(** X8: a generation that goes through stores one document at the end of
    the character collection, owned by the supplied user_id when that is a
    non-empty string and by "guest" when it is missing or empty, and answers
    with that document under its new id.  Its only calls on the store are
    the insert and the re-read on the character collection: no user is
    looked up, and the user collection is left as it was. *)
Theorem generate_character_owner (st st' : State) (p : CharacterPayload.t)
    (user_id : option string) (tr : list StoreOp) (r : option Doc) :
  generate_character p user_id st = (tr, st', Return r) ->
  exists (db : Database) (o : ObjectId.t) (u : Doc),
    let owner := match user_id with
                 | Some s => if String.eqb s "" then "guest" else s
                 | None => "guest"
                 end in
    let doc := model_dump {| Character.user_id := owner;
                             Character.prompt := CharacterPayload.prompt p;
                             Character.settings := CharacterPayload.settings p;
                             Character.preview_url := Some preview |} in
    st = Some db /\
    tr = [OpInsertOne "character" doc; OpFindOne "character" (by_id o)] /\
    st' = Some (<["character" := (collection db "character"
                                  ++ [{| _id := o; body := doc |}])%list]> db) /\
    (forall db', st' = Some db' -> collection db' "user" = collection db "user") /\
    r = Some u /\
    u !! "user_id" = Some (VStr owner) /\
    u !! "id" = Some (VStr (ObjectId.str o)).
Proof.
  destruct st as [db|]; [|discriminate]. rewrite generate_character_run.
  cbn zeta. destruct (Mongo.next_id _) as [o|]; [|discriminate].
  intros H; apply outcome_inj in H as (<- & <- & <-).
  rewrite to_str_id_document. eexists db, o, _.
  split; [reflexivity|]. split; [reflexivity|]. split; [reflexivity|].
  split; [|split; [reflexivity|split]].
  - intros db' [= <-]. now apply collection_insert_ne.
  - cbn [body]. rewrite lookup_insert_ne, lookup_delete_ne by discriminate.
    apply character_dump_user_id.
  - apply lookup_insert_eq.
Qed.

Lemma generate_character_owner_witness :
  exists (o : ObjectId.t) (u : Doc),
    returned (generate_character Sample.elf (Some "no-such-user") Sample.empty)
    = Some (Some u) /\
    u !! "user_id" = Some (VStr "no-such-user") /\
    u !! "id" = Some (VStr (ObjectId.str o)).
Proof.
  remember (default None
              (returned (generate_character Sample.elf (Some "no-such-user")
                           Sample.empty))) as r0 eqn:Hr0.
  assert (Hrun : generate_character Sample.elf (Some "no-such-user") Sample.empty
                 = (trace_of (generate_character Sample.elf
                                (Some "no-such-user") Sample.empty),
                    state_after (generate_character Sample.elf
                                   (Some "no-such-user") Sample.empty),
                    Return r0))
    by (rewrite Hr0; by_vm).
  destruct (generate_character_owner _ _ _ _ _ _ Hrun)
    as (db & o & u & _ & _ & _ & _ & Hr & Howner & Hid).
  exists o, u. split; [|split; [exact Howner | exact Hid]].
  rewrite <- Hr, Hr0. by_vm.
Defined.

(** ** A plan update that goes through *)

Lemma update_plan_inv (st st' : State) (p : PlanPayload.t)
    (tr : list StoreOp) (r : option Doc) :
  update_plan p st = (tr, st', Return r) ->
  exists (db : Database) (o : ObjectId.t) (users' : list Stored) (u : Stored),
    st = Some db /\
    PlanPayload.plan p ∈ plans /\
    ObjectId.of_str (PlanPayload.user_id p) = Some o /\
    Mongo.update_first (selects (by_id o))
      (Mongo.apply_set (set_plan (PlanPayload.plan p)))
      (collection db "user") = Some users' /\
    List.find (selects (by_id o)) (collection db "user") = Some u /\
    List.find (selects (by_id o)) users'
    = Some (Mongo.apply_set (set_plan (PlanPayload.plan p)) u) /\
    st' = Some (<["user" := users']> db) /\
    r = to_str_id (Some (document (Mongo.apply_set (set_plan (PlanPayload.plan p)) u))).
Proof.
  destruct st as [db|]; [|discriminate]. rewrite update_plan_run.
  destruct (bool_decide _) eqn:Hplan; [|discriminate].
  apply bool_decide_eq_true in Hplan.
  destruct (ObjectId.of_str _) as [o|] eqn:Ho; [|discriminate]. cbn zeta.
  destruct (Mongo.update_first _ _ _) as [users'|] eqn:Hupd; [|discriminate].
  intros H; apply outcome_inj in H as (<- & <- & <-).
  destruct (update_first_find _ _ _ _
              (fun s => selects_id_apply_set o _ s) Hupd) as (u & Hu & Hu').
  exists db, o, users', u. rewrite Hu'. repeat split; assumption || reflexivity.
Qed.

(** X11: the answer to a successful plan update shows the requested plan
    and the identifier in its canonical lower-case form, and a GET /me with
    the same user_id on the resulting store gives the same document. *)
Theorem update_plan_then_me (st st' : State) (p : PlanPayload.t)
    (tr : list StoreOp) (r : option Doc) :
  update_plan p st = (tr, st', Return r) ->
  exists (u : Doc) (o : ObjectId.t) (tr' : list StoreOp),
    r = Some u /\
    ObjectId.of_str (PlanPayload.user_id p) = Some o /\
    u !! "plan" = Some (VStr (PlanPayload.plan p)) /\
    u !! "id" = Some (VStr (ObjectId.str o)) /\
    me (PlanPayload.user_id p) st' = (tr', st', Return r).
Proof.
  intros Hupd.
  apply update_plan_inv in Hupd
    as (db & o & users' & s & _ & _ & Ho & Hupd & Hs & Hs' & -> & ->).
  apply find_some in Hs as [_ Hsel]. unfold by_id in Hsel.
  rewrite selects_id in Hsel. apply N.eqb_eq in Hsel.
  rewrite to_str_id_document. eexists _, o, _.
  split; [reflexivity|]. split; [exact Ho|]. split; [|split].
  - rewrite lookup_insert_ne, lookup_delete_ne by discriminate.
    apply lookup_insert_eq.
  - rewrite lookup_insert_eq. cbn [Mongo.apply_set _id]. now rewrite Hsel.
  - rewrite me_run, Ho, collection_insert, Hs'.
    now rewrite to_str_id_document.
Qed.

Lemma update_plan_then_me_witness :
  exists (u : Doc) (tr' : list StoreOp),
    returned (update_plan Sample.upgrade (Some Sample.one_user)) = Some (Some u) /\
    u !! "plan" = Some (VStr "pro") /\
    me "000000000000000000000000"
      (state_after (update_plan Sample.upgrade (Some Sample.one_user)))
    = (tr', state_after (update_plan Sample.upgrade (Some Sample.one_user)),
       Return (Some u)).
Proof.
  destruct (update_plan_then_me (Some Sample.one_user)
              (state_after (update_plan Sample.upgrade (Some Sample.one_user)))
              Sample.upgrade
              (trace_of (update_plan Sample.upgrade (Some Sample.one_user)))
              (default None
                 (returned (update_plan Sample.upgrade (Some Sample.one_user)))))
    as (u & o & tr' & Hr & _ & Hplan & _ & Hme).
  - by_vm.
  - exists u, tr'. split; [rewrite <- Hr; by_vm|]. split; [exact Hplan|].
    rewrite <- Hr. exact Hme.
Defined.

Lemma update_first_again (p : Stored -> bool) (f : Stored -> Stored)
    (l l' : list Stored) :
  (forall s, p s = true -> p (f s) = true) ->
  (forall s, f (f s) = f s) ->
  Mongo.update_first p f l = Some l' ->
  Mongo.update_first p f l' = Some l'.
Proof.
  intros Hp Hf. revert l'. induction l as [|x l IH]; intros l'; simpl;
    [discriminate|].
  destruct (p x) eqn:Hx.
  - intros [= <-]. simpl. now rewrite (Hp x Hx), Hf.
  - destruct (Mongo.update_first p f l) as [r|]; [|discriminate].
    intros [= <-]. simpl. now rewrite Hx, (IH r eq_refl).
Qed.

Lemma apply_set_plan_twice (plan : string) (s : Stored) :
  Mongo.apply_set (set_plan plan) (Mongo.apply_set (set_plan plan) s)
  = Mongo.apply_set (set_plan plan) s.
Proof.
  rewrite !apply_set_plan. cbn [_id body]. now rewrite insert_insert_eq.
Qed.

(** X15: a plan update that has gone through can be repeated: the same
    request on the resulting store gives the same answer with the same store
    calls and changes nothing further. *)
Theorem update_plan_idempotent (st st' : State) (p : PlanPayload.t)
    (tr : list StoreOp) (r : option Doc) :
  update_plan p st = (tr, st', Return r) ->
  update_plan p st' = (tr, st', Return r).
Proof.
  intros Hupd. pose proof Hupd as Hrun.
  apply update_plan_inv in Hupd
    as (db & o & users' & s & -> & Hplan & Ho & Hupd & Hs & Hs' & -> & ->).
  rewrite update_plan_run in Hrun |- *.
  rewrite bool_decide_true, Ho in Hrun |- * by exact Hplan. cbn zeta in *.
  rewrite Hupd in Hrun. rewrite collection_insert.
  pose proof (update_first_again (selects (by_id o))
                (Mongo.apply_set (set_plan (PlanPayload.plan p)))
                _ _ (fun s => selects_id_apply_set o _ s)
                (apply_set_plan_twice _) Hupd) as Hagain.
  rewrite Hagain, insert_insert_eq, Hs'.
  apply outcome_inj in Hrun as (<- & _ & _). reflexivity.
Qed.

Lemma update_plan_idempotent_witness :
  update_plan Sample.upgrade
    (state_after (update_plan Sample.upgrade (Some Sample.one_user)))
  = update_plan Sample.upgrade (Some Sample.one_user).
Proof.
  rewrite (update_plan_idempotent (Some Sample.one_user)
             (state_after (update_plan Sample.upgrade (Some Sample.one_user)))
             Sample.upgrade
             (trace_of (update_plan Sample.upgrade (Some Sample.one_user)))
             (default None
                (returned (update_plan Sample.upgrade (Some Sample.one_user)))));
    by_vm.
Defined.

(** ** What a request can do to the store *)

Lemma fmap_state_after {A B} (f : A -> B) (m : M A) (st : State) :
  state_after ((f <$> m) st) = state_after (m st).
Proof.
  rewrite fmap_run. now destruct (m st) as [[t st1] [a|e]].
Qed.

Lemma signup_step (db : Database) (p : AuthPayload.t) :
  exists db', state_after (signup p (Some db)) = Some db' /\ step db db'.
Proof.
  rewrite signup_run. cbn zeta.
  destruct (List.find _ _) eqn:Hfind; [eexists; split; [reflexivity | constructor]|].
  destruct (Mongo.next_id _) as [o|] eqn:Hnext;
    [|eexists; split; [reflexivity | constructor]].
  eexists. split; [reflexivity|]. now apply step_signup.
Qed.

Lemma generate_character_step (db : Database) (p : CharacterPayload.t)
    (user_id : option string) :
  exists db', state_after (generate_character p user_id (Some db)) = Some db'
              /\ step db db'.
Proof.
  rewrite generate_character_run. cbn zeta.
  destruct (Mongo.next_id _) as [o|] eqn:Hnext;
    [|eexists; split; [reflexivity | constructor]].
  eexists. split; [reflexivity|]. now apply step_generate.
Qed.

Lemma update_plan_step (db : Database) (p : PlanPayload.t) :
  exists db', state_after (update_plan p (Some db)) = Some db' /\ step db db'.
Proof.
  rewrite update_plan_run.
  destruct (bool_decide _) eqn:Hplan;
    [|eexists; split; [reflexivity | constructor]].
  apply bool_decide_eq_true in Hplan.
  destruct (ObjectId.of_str _) as [o|];
    [|eexists; split; [reflexivity | constructor]]. cbn zeta.
  destruct (Mongo.update_first _ _ _) as [users'|] eqn:Hupd;
    [|eexists; split; [reflexivity | constructor]].
  apply update_first_spec in Hupd as (i & u & Hi & _ & ->).
  eexists. split; [reflexivity|]. now apply step_plan.
Qed.

Lemma dispatch_step (req : Request) (db : Database) :
  exists db', state_after (dispatch req (Some db)) = Some db' /\ step db db'.
Proof.
  destruct req; cbn [dispatch]; rewrite fmap_state_after.
  - apply signup_step.
  - rewrite login_state_after. eexists. split; [reflexivity | constructor].
  - rewrite me_state_after. eexists. split; [reflexivity | constructor].
  - apply generate_character_step.
  - rewrite list_characters_state_after.
    eexists. split; [reflexivity | constructor].
  - apply update_plan_step.
Qed.

Lemma in_list_insert {A} (l : list A) (i : nat) (x y : A) :
  In y (<[i := x]> l) -> y = x \/ In y l.
Proof.
  intros Hin. apply list_elem_of_In, list_elem_of_lookup in Hin as (j & Hj).
  destruct (decide (i = j)) as [<-|Hne].
  - destruct (decide (i < length l)%nat) as [Hlt|Hge].
    + rewrite list_lookup_insert_eq in Hj by exact Hlt. left. congruence.
    + rewrite list_insert_ge in Hj by lia. right.
      apply list_elem_of_In. eapply list_elem_of_lookup_2. exact Hj.
  - rewrite list_lookup_insert_ne in Hj by exact Hne. right.
    apply list_elem_of_In. eapply list_elem_of_lookup_2. exact Hj.
Qed.

Lemma plans_valid_step (db db' : Database) :
  step db db' -> plans_valid db -> plans_valid db'.
Proof.
  intros Hstep Hvalid. destruct Hstep as [|p o _ _|p uid o _|i u plan Hi Hplan].
  - exact Hvalid.
  - intros s. rewrite collection_insert. intros Hs.
    apply in_app_or in Hs as [Hs|[<-|[]]]; [now apply Hvalid|].
    exists "free". split; [reflexivity|]. unfold plans. set_solver.
  - intros s. rewrite collection_insert_ne by discriminate. apply Hvalid.
  - intros s. rewrite collection_insert. intros Hs.
    apply in_list_insert in Hs as [->|Hs]; [|now apply Hvalid].
    exists plan. split; [|exact Hplan]. apply lookup_insert_eq.
Qed.

(** X12: every request keeps the plans valid: if each stored user has one
    of the plans free, plus, pro before a request to a data endpoint, each
    has one after it, whatever the request and its outcome. *)
Theorem dispatch_keeps_plans_valid (req : Request) (db db' : Database) :
  plans_valid db ->
  state_after (dispatch req (Some db)) = Some db' ->
  plans_valid db'.
Proof.
  intros Hvalid Hrun. destruct (dispatch_step req db) as (db1 & Hdb1 & Hstep).
  rewrite Hrun in Hdb1. injection Hdb1 as <-.
  now apply (plans_valid_step db).
Qed.

Lemma sample_one_user_plans_valid : plans_valid Sample.one_user.
Proof.
  intros s [<-|[]]. exists "free". split; [reflexivity|].
  unfold plans. set_solver.
Qed.

Lemma dispatch_keeps_plans_valid_witness :
  exists db',
    state_after (dispatch (PostPlan Sample.upgrade) (Some Sample.one_user))
    = Some db' /\
    plans_valid db'.
Proof.
  exists (default ∅ (state_after (dispatch (PostPlan Sample.upgrade)
                                    (Some Sample.one_user)))).
  assert (Hrun : state_after (dispatch (PostPlan Sample.upgrade)
                                (Some Sample.one_user))
                 = Some (default ∅ (state_after (dispatch (PostPlan Sample.upgrade)
                                                   (Some Sample.one_user)))))
    by by_vm.
  split; [exact Hrun|].
  exact (dispatch_keeps_plans_valid (PostPlan Sample.upgrade) Sample.one_user _
           sample_one_user_plans_valid Hrun).
Defined.

Lemma apply_set_plan_email (plan : string) (s : Stored) :
  body (Mongo.apply_set (set_plan plan) s) !! "email" = body s !! "email".
Proof. rewrite apply_set_plan. cbn [body]. now rewrite lookup_insert_ne. Qed.

Lemma emails_unique_step (db db' : Database) :
  step db db' -> emails_unique db -> emails_unique db'.
Proof.
  intros Hstep Huniq.
  destruct Hstep as [|p o Hnew _|p uid o _|i0 u plan Hi0 _].
  - exact Huniq.
  - assert (Hfresh : forall k a, collection db "user" !! k = Some a ->
                       body a !! "email" <> Some (VStr (AuthPayload.email p))).
    { intros k a Hk Ha.
      assert (Hin : In a (collection db "user")).
      { apply list_elem_of_In. eapply list_elem_of_lookup_2. exact Hk. }
      pose proof (find_none _ _ Hnew a Hin) as Hno.
      unfold by_email in Hno.
      apply (proj2 (selects_str "email" _ a ltac:(discriminate))) in Ha.
      congruence. }
    intros i j a b e. rewrite collection_insert. intros Ha Hb Hea Heb.
    apply lookup_app_Some in Ha as [Ha|[Hlen Ha]];
      apply lookup_app_Some in Hb as [Hb|[Hlen' Hb]].
    + eapply Huniq; eauto.
    + apply list_lookup_singleton_Some in Hb as [_ <-].
      cbn [body] in Heb. rewrite user_dump_email in Heb. injection Heb as <-.
      destruct (Hfresh i a Ha Hea).
    + apply list_lookup_singleton_Some in Ha as [_ <-].
      cbn [body] in Hea. rewrite user_dump_email in Hea. injection Hea as <-.
      destruct (Hfresh j b Hb Heb).
    + apply list_lookup_singleton_Some in Ha as [Hi _].
      apply list_lookup_singleton_Some in Hb as [Hj _]. lia.
  - intros i j a b e. rewrite collection_insert_ne by discriminate. apply Huniq.
  - assert (Hback : forall k a e,
              <[i0 := Mongo.apply_set (set_plan plan) u]> (collection db "user") !! k
              = Some a ->
              body a !! "email" = Some (VStr e) ->
              exists a0, collection db "user" !! k = Some a0 /\
                         body a0 !! "email" = Some (VStr e)).
    { intros k a e Hk He. destruct (decide (i0 = k)) as [<-|Hne].
      - rewrite list_lookup_insert_eq in Hk
          by (eapply lookup_lt_Some; exact Hi0).
        injection Hk as <-. exists u. split; [exact Hi0|].
        now rewrite apply_set_plan_email in He.
      - rewrite list_lookup_insert_ne in Hk by exact Hne. eauto. }
    intros i j a b e. rewrite collection_insert. intros Ha Hb Hea Heb.
    destruct (Hback i a e Ha Hea) as (a0 & Ha0 & Hea0).
    destruct (Hback j b e Hb Heb) as (b0 & Hb0 & Heb0).
    eapply Huniq; eauto.
Qed.

(** X13: requests served one after the other keep emails unique: if no
    two stored users share an email before a request to a data endpoint,
    none do after it. *)
Theorem dispatch_keeps_emails_unique (req : Request) (db db' : Database) :
  emails_unique db ->
  state_after (dispatch req (Some db)) = Some db' ->
  emails_unique db'.
Proof.
  intros Huniq Hrun. destruct (dispatch_step req db) as (db1 & Hdb1 & Hstep).
  rewrite Hrun in Hdb1. injection Hdb1 as <-.
  now apply (emails_unique_step db).
Qed.

Lemma sample_one_user_emails_unique : emails_unique Sample.one_user.
Proof.
  intros i j a b e Ha Hb _ _.
  assert (Hlen : length (collection Sample.one_user "user") = 1%nat) by by_vm.
  apply lookup_lt_Some in Ha. apply lookup_lt_Some in Hb. lia.
Qed.

Lemma dispatch_keeps_emails_unique_witness :
  exists db',
    state_after (dispatch (PostSignup Sample.bob) (Some Sample.one_user))
    = Some db' /\
    length (collection db' "user") = 2%nat /\
    emails_unique db'.
Proof.
  exists (default ∅ (state_after (dispatch (PostSignup Sample.bob)
                                    (Some Sample.one_user)))).
  assert (Hrun : state_after (dispatch (PostSignup Sample.bob)
                                (Some Sample.one_user))
                 = Some (default ∅ (state_after (dispatch (PostSignup Sample.bob)
                                                   (Some Sample.one_user)))))
    by by_vm.
  split; [exact Hrun|]. split; [by_vm|].
  exact (dispatch_keeps_emails_unique (PostSignup Sample.bob) Sample.one_user _
           sample_one_user_emails_unique Hrun).
Defined.

(** ** Nothing is deleted *)

Lemma ids_insert_same (l : list Stored) (i : nat) (u u' : Stored) :
  l !! i = Some u -> _id u' = _id u ->
  _id <$> <[i := u']> l = _id <$> l.
Proof.
  intros Hi Hid. rewrite list_fmap_insert, Hid.
  apply list_insert_id. now rewrite list_lookup_fmap, Hi.
Qed.

(** X14: no request deletes a document, moves one or changes an
    identifier: in every collection the identifiers stored before a request
    to a data endpoint are, in order, the first identifiers stored after it;
    and a store that is available stays available. *)
Theorem dispatch_never_deletes (req : Request) (db : Database) :
  exists db',
    state_after (dispatch req (Some db)) = Some db' /\
    forall name,
      (_id <$> collection db name) `prefix_of` (_id <$> collection db' name).
Proof.
  destruct (dispatch_step req db) as (db' & Hrun & Hstep).
  exists db'. split; [exact Hrun|]. intros name.
  destruct Hstep as [|p o _ _|p uid o _|i u plan Hi _].
  - reflexivity.
  - destruct (decide (name = "user")) as [->|Hne].
    + rewrite collection_insert, fmap_app. now apply prefix_app_r.
    + now rewrite collection_insert_ne by congruence.
  - destruct (decide (name = "character")) as [->|Hne].
    + rewrite collection_insert, fmap_app. now apply prefix_app_r.
    + now rewrite collection_insert_ne by congruence.
  - destruct (decide (name = "user")) as [->|Hne].
    + rewrite collection_insert. now rewrite (ids_insert_same _ _ u).
    + now rewrite collection_insert_ne by congruence.
Qed.

Lemma dispatch_never_deletes_witness :
  exists db',
    state_after (dispatch (PostPlan Sample.upgrade) (Some Sample.one_user))
    = Some db' /\
    _id <$> collection db' "user" = [0%N].
Proof.
  destruct (dispatch_never_deletes (PostPlan Sample.upgrade) Sample.one_user)
    as (db' & Hrun & Hids).
  exists db'. split; [exact Hrun|].
  assert (Hdb' : Some db'
                 = state_after (dispatch (PostPlan Sample.upgrade)
                                  (Some Sample.one_user)))
    by (now rewrite Hrun).
  assert (Heq : (_id <$> collection db' "user") = [0%N]).
  { transitivity
      (_id <$> collection
                 (default ∅ (state_after (dispatch (PostPlan Sample.upgrade)
                                            (Some Sample.one_user)))) "user").
    - now rewrite <- Hdb'.
    - by_vm. }
  exact Heq.
Defined.

(** ** GET /me answers exactly for stored users *)

(** X16: with the store available, GET /me answers with a document exactly
    when user_id is well formed and a stored user has that identifier, and
    the document is that of a stored user with that identifier. *)
Theorem me_spec (db : Database) (user_id : string) :
  (forall tr st' r,
      me user_id (Some db) = (tr, st', Return r) ->
      exists o s,
        ObjectId.of_str user_id = Some o /\
        In s (collection db "user") /\ _id s = o /\
        r = to_str_id (Some (document s))) /\
  (forall o s,
      ObjectId.of_str user_id = Some o ->
      In s (collection db "user") -> _id s = o ->
      exists tr s',
        In s' (collection db "user") /\ _id s' = o /\
        me user_id (Some db)
        = (tr, Some db, Return (to_str_id (Some (document s'))))).
Proof.
  rewrite me_run. split.
  - intros tr st' r. destruct (ObjectId.of_str user_id) as [o|]; [|discriminate].
    destruct (List.find _ _) as [s|] eqn:Hfind; [|discriminate].
    intros H; apply outcome_inj in H as (<- & <- & <-).
    apply find_some in Hfind as [Hin Hsel]. unfold by_id in Hsel.
    rewrite selects_id in Hsel. apply N.eqb_eq in Hsel.
    exists o, s. auto.
  - intros o s -> Hin Hid.
    destruct (List.find _ _) as [s'|] eqn:Hfind.
    + apply find_some in Hfind as [Hin' Hsel]. unfold by_id in Hsel.
      rewrite selects_id in Hsel. apply N.eqb_eq in Hsel.
      exists [OpFindOne "user" (by_id o)], s'. auto.
    + pose proof (find_none _ _ Hfind s Hin) as Hno. unfold by_id in Hno.
      rewrite selects_id in Hno. apply N.eqb_neq in Hno. congruence.
Qed.

Lemma me_spec_witness :
  exists tr s',
    In s' (collection Sample.one_user "user") /\ _id s' = 0%N /\
    me "000000000000000000000000" (Some Sample.one_user)
    = (tr, Some Sample.one_user, Return (to_str_id (Some (document s')))).
Proof.
  apply (proj2 (me_spec Sample.one_user "000000000000000000000000") 0%N
           {| _id := 0%N; body := model_dump (signup_user Sample.alice) |}).
  - by_vm.
  - left. reflexivity.
  - reflexivity.
Defined.

(** ** One owner's characters and another's listing *)

(** X17: generating a character for one owner never changes what the
    listing returns for a different user_id, whether the generation goes
    through or not. *)
Theorem generate_keeps_other_listings (db : Database) (p : CharacterPayload.t)
    (owner : option string) (user_id : string) (limit : Z) :
  Py.or_str owner "guest" <> user_id ->
  exists db',
    state_after (generate_character p owner (Some db)) = Some db' /\
    returned (list_characters user_id limit (Some db'))
    = returned (list_characters user_id limit (Some db)).
Proof.
  intros Hother. rewrite generate_character_run. cbn zeta.
  destruct (Mongo.next_id _) as [o|]; [|eexists; split; reflexivity].
  eexists. split; [reflexivity|].
  rewrite !list_characters_run. unfold returned. cbn [snd].
  rewrite collection_insert, List.filter_app. cbn [List.filter].
  assert (Hsel : selects (by_owner user_id)
                   {| _id := o; body := model_dump (generated_character p owner) |}
                 = false).
  { apply not_true_is_false. intros Hsel.
    apply selects_str in Hsel; [|discriminate]. cbn [body] in Hsel.
    rewrite character_dump_user_id in Hsel. injection Hsel as Hsel.
    exact (Hother Hsel). }
  now rewrite Hsel, app_nil_r.
Qed.

Lemma generate_keeps_other_listings_witness :
  exists db',
    state_after (generate_character Sample.elf (Some "ann") (Some Sample.crowded))
    = Some db' /\
    returned (list_characters "guest" 20 (Some db'))
    = returned (list_characters "guest" 20 (Some Sample.crowded)).
Proof.
  apply (generate_keeps_other_listings Sample.crowded Sample.elf (Some "ann")
           "guest" 20).
  discriminate.
Defined.
